(** * pulso: the breathing-exercise assistant of [pulso_v2.py]

    A shallow embedding of the timing core and of the session controller of
    [BreathingApp], and the properties its specification states about them.

    Numbers.  Python's [int] and [float] values are read as exact rationals
    ([Q]); comparisons of computed numbers are therefore stated with [==]
    ([Qeq]).  Operations that raise in Python ([x / 0], [l[i]] out of range,
    [d[k]] on a missing key) return [Raise] here; so does [round] on the
    quotient of the slider handler when that quotient is beyond the finite
    binary64 numbers.  The module [Binary64]
    repeats the phase loop and the scale factors over IEEE binary64 numbers,
    to evaluate the scenarios with the rounding that Python applies.

    State.  The attributes of the [BreathingApp] object, the canvas items it
    draws on and the [after] queue of the Tk main loop are the fields of the
    record [App]; a method is a function from [App] to a [result], which
    keeps the state reached when an exception escapes. *)

From Stdlib Require Import QArith Qround Lqa.
From Stdlib Require Import Floats.PrimFloat.
From stdpp Require Import gmap strings list fin_maps.

(** ** Python values *)

Inductive exn : Set :=
  | IndexError
  | KeyError
  | ZeroDivisionError
  | ValueError
  | OverflowError.

Inductive py (A : Type) : Type :=
  | Ok (a : A)
  | Raise (e : exn).
Arguments Ok {A} a.
Arguments Raise {A} e.

(** Sequencing: the first exception raised ends the computation.  This
    gives the notation [x ← m; k]. *)
#[global] Instance py_ret : MRet py := fun A a => Ok a.
#[global] Instance py_bind : MBind py := fun A B k m =>
  match m with
  | Ok a => k a
  | Raise e => Raise e
  end.

Definition succeeds {A : Type} (m : py A) : Prop :=
  match m with
  | Ok _ => True
  | Raise _ => False
  end.

(** [x < y] on numbers. *)
Definition Qltb (x y : Q) : bool := negb (Qle_bool y x).

(** [x / y]. *)
Definition py_div (x y : Q) : py Q :=
  if Qeq_bool y 0 then Raise ZeroDivisionError else Ok (x / y)%Q.

(** [x % 1]: the result has the sign of the divisor. *)
Definition py_mod1 (x : Q) : Q := (x - inject_Z (Qfloor x))%Q.

(** [sum(l)]: starts from [0] and adds from the left. *)
Definition py_sum (l : list Q) : Q := fold_left Qplus l 0%Q.

(** [l[i]] for [i >= 0]. *)
Definition py_index {A : Type} (l : list A) (i : nat) : py A :=
  match l !! i with
  | Some a => Ok a
  | None => Raise IndexError
  end.

(** [l[-1]]. *)
Definition py_last {A : Type} (l : list A) : py A :=
  match last l with
  | Some a => Ok a
  | None => Raise IndexError
  end.

(** [d[k]] on a dict with string keys. *)
Definition py_getitem {A : Type} (d : gmap string A) (k : string) : py A :=
  match d !! k with
  | Some a => Ok a
  | None => Raise KeyError
  end.

(** [min(x, y)] and [max(x, y)]: the first argument wins a tie. *)
Definition py_min (x y : Q) : Q := if Qltb y x then y else x.
Definition py_max (x y : Q) : Q := if Qltb x y then y else x.

(** [round(x)]: to the nearest integer, a half goes to the even one. *)
Definition py_round (x : Q) : Z :=
  let f := Qfloor x in
  let r := (x - inject_Z f)%Q in
  if Qltb r 0.5 then f
  else if Qltb 0.5 r then (f + 1)%Z
  else if Z.even f then f else (f + 1)%Z.

(** Binary64 has no finite number at or beyond [2^1024 - 2^970], the
    midpoint between its largest finite number and [2^1024]: a quotient
    whose exact value lies there is an infinity. *)
Definition float_overflow : Q := inject_Z (2 ^ 1024 - 2 ^ 970).
Definition float_finite (x : Q) : bool :=
  Qltb (- float_overflow) x && Qltb x float_overflow.

(** [round(x)] on the result of a float division: an infinity raises
    [OverflowError]. *)
Definition py_round_float (x : Q) : py Z :=
  if float_finite x then Ok (py_round x) else Raise OverflowError.

(** The binary64 number that [float] makes of the text '1e308'. *)
Definition float_1e308 : Z :=
  100000000000000001097906362944045541740492309677311846336810682903157585404911491537163328978494688899061249669721172515611590283743140088328307009198146046031271664502933027185697489699588559043338384466165001178426897626212945177628091195786707458122783970171784415105291802893207873272974885715430223118336.

(** [int(x)]: truncates towards zero. *)
Definition py_int (x : Q) : Z :=
  if Qltb x 0 then Qceiling x else Qfloor x.

(** ** The pattern model *)

Record BreathingPattern : Type := {
  phases : list Q;
  uses_pace : bool;
  labels : list string
}.

Module BreathingApp.

Definition MIN_BREATH_PACE : Q := 2.0.
Definition MAX_BREATH_PACE : Q := 9.0.
Definition DEFAULT_BREATH_PACE : Q := 5.5.
Definition MIN_SESSION_DURATION : Q := 0.5.
Definition MAX_SESSION_DURATION : Q := 60.0.
Definition DEFAULT_SESSION_DURATION : Q := 5.0.
Definition CANVAS_SIZE : Z := 300.
Definition CIRCLE_PADDING : Z := 15.
Definition UPDATE_INTERVAL : Z := 16.

Definition PHASE_COLORS : gmap string string :=
  {[ "inhale" := "#3498db"; "hold" := "#2ecc71"; "exhale" := "#e67e22" ]}.

Definition SCALE_FACTORS : gmap string (Q -> Q) :=
  {[ "inhale" := (fun p => 0.2 + 0.8 * p)%Q;
     "exhale" := (fun p => 1.0 - 0.8 * p)%Q;
     "hold" := (fun _ => 1.0%Q) ]}.

(** [self.patterns], built once in [__init__] and never written again. *)
Definition patterns : gmap string BreathingPattern :=
  {[ "Balanced (1:1)" :=
       {| phases := [1; 1]%Q; uses_pace := true;
          labels := ["inhale"; "exhale"] |};
     "Calm (1:2)" :=
       {| phases := [1; 2]%Q; uses_pace := true;
          labels := ["inhale"; "exhale"] |};
     "Vitality (2:1)" :=
       {| phases := [2; 1]%Q; uses_pace := true;
          labels := ["inhale"; "exhale"] |};
     "4-7-8 (+hold)" :=
       {| phases := [4; 7; 8]%Q; uses_pace := false;
          labels := ["inhale"; "hold"; "exhale"] |} ]}.

(** ** The cycle progress engine *)

(** The [for i, d in enumerate(pat.phases)] loop of [_calc_phase_progress]
    from index [i] on, with the running offset [c], followed by the
    fallback return. *)
Fixpoint phase_loop (t : Q) (lbls : list string) (i : nat) (c : Q)
    (ds : list Q) : py (string * Q * Q) :=
  match ds with
  | [] =>
      lbl ← py_last lbls;
      Ok (lbl, 1.0%Q, 0.0%Q)
  | d :: ds' =>
      if Qltb t (c + d) then
        let e := (t - c)%Q in
        lbl ← py_index lbls i;
        f ← py_div e d;
        Ok (lbl, f, (d - e)%Q)
      else phase_loop t lbls (S i) (c + d)%Q ds'
  end.

Definition _calc_phase_progress (norm : Q) (pat : BreathingPattern)
    (total : Q) : py (string * Q * Q) :=
  let t := (norm * total)%Q in
  phase_loop t (labels pat) 0 0%Q (phases pat).

(** [cycle_time] as [_run_breathing_cycle] computes it from the pattern and
    the pace variable. *)
Definition cycle_time (pat : BreathingPattern) (pace : Q) : py Q :=
  let total := py_sum (phases pat) in
  if uses_pace pat then py_div 60 pace else Ok total.

(** The progress update of [_run_breathing_cycle], for an update interval
    of [interval] milliseconds (the class attribute [UPDATE_INTERVAL]). *)
Definition advance (progress : Q) (interval : Q) (pat : BreathingPattern)
    (pace : Q) : py Q :=
  ct ← cycle_time pat pace;
  step ← py_div interval (ct * 1000);
  Ok (py_mod1 (progress + step)).

(** The call [self._calc_phase_progress(self.progress, pat, total)] of
    [_run_breathing_cycle], where [total = sum(pat.phases)]. *)
Definition resolvePhase (progress : Q) (pat : BreathingPattern)
    : py (string * Q * Q) :=
  _calc_phase_progress progress pat (py_sum (phases pat)).

(** [self.SCALE_FACTORS[phase](prog)]. *)
Definition scaleFactor (phase : string) (prog : Q) : py Q :=
  f ← py_getitem SCALE_FACTORS phase;
  Ok (f prog).

(** ** The Tk side: the [after] queue, the bell, the canvas, the widgets *)

(** The two bound methods the program hands to [master.after]. *)
Inductive callback : Set :=
  | cb_stop_session
  | cb_run_breathing_cycle.

(** [master]: the identifiers it has handed out, the callbacks waiting in
    its [after] queue with their delay in milliseconds, and how often the
    bell rang. *)
Record Tk : Type := {
  next_after : nat;
  after_queue : list (nat * (Z * callback));
  bells : nat
}.

(** The text item of the canvas: ["Ready"], or
    [f"{phase.capitalize()}\n{rem:.1f}s"] kept as its two parts. *)
Inductive canvas_text : Type :=
  | ReadyText
  | PhaseText (phase : string) (rem : Q).

Record Canvas : Type := {
  circle_coords : Q * Q * Q * Q;
  arc_coords : Q * Q * Q * Q;
  arc_extent : Q;
  arc_outline : string;
  text : canvas_text
}.

(** The text of a slider label, [f"{txt} {unit}"], kept as the number that
    [txt] prints and the unit. *)
Inductive label_text : Type :=
  | LabelText (value : Q) (unit : string).

Record Widgets : Type := {
  start_stop_button : string;
  breath_scale_state : string;
  breath_pace_label_style : string;
  breath_pace_label : label_text;
  session_duration_label : label_text
}.

(** ** The application object *)

Record App : Type := {
  selected_pattern : string;
  breath_pace : Q;
  session_duration : Q;
  is_running : bool;
  current_phase : string;
  progress : Q;
  scheduled_end : option nat;
  canvas : Canvas;
  widgets : Widgets;
  master : Tk
}.

Definition set_selected_pattern (v : string) (s : App) : App :=
  {| selected_pattern := v; breath_pace := breath_pace s;
     session_duration := session_duration s; is_running := is_running s;
     current_phase := current_phase s; progress := progress s;
     scheduled_end := scheduled_end s; canvas := canvas s;
     widgets := widgets s; master := master s |}.

Definition set_breath_pace (v : Q) (s : App) : App :=
  {| selected_pattern := selected_pattern s; breath_pace := v;
     session_duration := session_duration s; is_running := is_running s;
     current_phase := current_phase s; progress := progress s;
     scheduled_end := scheduled_end s; canvas := canvas s;
     widgets := widgets s; master := master s |}.

Definition set_session_duration (v : Q) (s : App) : App :=
  {| selected_pattern := selected_pattern s; breath_pace := breath_pace s;
     session_duration := v; is_running := is_running s;
     current_phase := current_phase s; progress := progress s;
     scheduled_end := scheduled_end s; canvas := canvas s;
     widgets := widgets s; master := master s |}.

Definition set_is_running (v : bool) (s : App) : App :=
  {| selected_pattern := selected_pattern s; breath_pace := breath_pace s;
     session_duration := session_duration s; is_running := v;
     current_phase := current_phase s; progress := progress s;
     scheduled_end := scheduled_end s; canvas := canvas s;
     widgets := widgets s; master := master s |}.

Definition set_current_phase (v : string) (s : App) : App :=
  {| selected_pattern := selected_pattern s; breath_pace := breath_pace s;
     session_duration := session_duration s; is_running := is_running s;
     current_phase := v; progress := progress s;
     scheduled_end := scheduled_end s; canvas := canvas s;
     widgets := widgets s; master := master s |}.

Definition set_progress (v : Q) (s : App) : App :=
  {| selected_pattern := selected_pattern s; breath_pace := breath_pace s;
     session_duration := session_duration s; is_running := is_running s;
     current_phase := current_phase s; progress := v;
     scheduled_end := scheduled_end s; canvas := canvas s;
     widgets := widgets s; master := master s |}.

Definition set_scheduled_end (v : option nat) (s : App) : App :=
  {| selected_pattern := selected_pattern s; breath_pace := breath_pace s;
     session_duration := session_duration s; is_running := is_running s;
     current_phase := current_phase s; progress := progress s;
     scheduled_end := v; canvas := canvas s;
     widgets := widgets s; master := master s |}.

Definition set_canvas (v : Canvas) (s : App) : App :=
  {| selected_pattern := selected_pattern s; breath_pace := breath_pace s;
     session_duration := session_duration s; is_running := is_running s;
     current_phase := current_phase s; progress := progress s;
     scheduled_end := scheduled_end s; canvas := v;
     widgets := widgets s; master := master s |}.

Definition set_widgets (v : Widgets) (s : App) : App :=
  {| selected_pattern := selected_pattern s; breath_pace := breath_pace s;
     session_duration := session_duration s; is_running := is_running s;
     current_phase := current_phase s; progress := progress s;
     scheduled_end := scheduled_end s; canvas := canvas s;
     widgets := v; master := master s |}.

Definition set_master (v : Tk) (s : App) : App :=
  {| selected_pattern := selected_pattern s; breath_pace := breath_pace s;
     session_duration := session_duration s; is_running := is_running s;
     current_phase := current_phase s; progress := progress s;
     scheduled_end := scheduled_end s; canvas := canvas s;
     widgets := widgets s; master := v |}.

(** ** Methods: state passing with exceptions *)

Inductive result (A : Type) : Type :=
  | Done (a : A) (s : App)
  | Raised (e : exn) (s : App).
Arguments Done {A} a s.
Arguments Raised {A} e s.

Definition M (A : Type) : Type := App -> result A.

#[global] Instance M_ret : MRet M := fun A a s => Done a s.
#[global] Instance M_bind : MBind M := fun A B k m s =>
  match m s with
  | Done a s' => k a s'
  | Raised e s' => Raised e s'
  end.

Definition get : M App := fun s => Done s s.
Definition modify (f : App -> App) : M unit := fun s => Done tt (f s).
Definition lift {A : Type} (m : py A) : M A := fun s =>
  match m with
  | Ok a => Done a s
  | Raise e => Raised e s
  end.

(** [master.after(ms, cb)]: queues [cb] and returns a fresh identifier. *)
Definition after (ms : Z) (cb : callback) : M nat := fun s =>
  let tk := master s in
  let id := next_after tk in
  Done id (set_master {| next_after := S id;
                         after_queue := after_queue tk ++ [(id, (ms, cb))];
                         bells := bells tk |} s).

(** [master.after_cancel(id)]: the callback with this identifier will not
    run. *)
Definition after_cancel (id : nat) : M unit := fun s =>
  let tk := master s in
  Done tt (set_master {| next_after := next_after tk;
                         after_queue :=
                           filter (fun e => e.1 <> id) (after_queue tk);
                         bells := bells tk |} s).

(** [master.bell()]. *)
Definition bell : M unit := fun s =>
  let tk := master s in
  Done tt (set_master {| next_after := next_after tk;
                         after_queue := after_queue tk;
                         bells := S (bells tk) |} s).

(** [str.capitalize()] on ASCII text: first character upper case, the
    others lower case. *)
Definition upper (a : Ascii.ascii) : Ascii.ascii :=
  let n := Ascii.nat_of_ascii a in
  if (97 <=? n)%nat && (n <=? 122)%nat then Ascii.ascii_of_nat (n - 32) else a.
Definition lower (a : Ascii.ascii) : Ascii.ascii :=
  let n := Ascii.nat_of_ascii a in
  if (65 <=? n)%nat && (n <=? 90)%nat then Ascii.ascii_of_nat (n + 32) else a.
Fixpoint lowercase (s : string) : string :=
  match s with
  | EmptyString => EmptyString
  | String a s' => String (lower a) (lowercase s')
  end.
Definition capitalize (s : string) : string :=
  match s with
  | EmptyString => EmptyString
  | String a s' => String (upper a) (lowercase s')
  end.

Definition _update_circle_size (scale : Q) : M unit :=
  let c := inject_Z (CANVAS_SIZE / 2) in
  let r := ((c - inject_Z CIRCLE_PADDING) * scale)%Q in
  let coords := ((c - r)%Q, (c - r)%Q, (c + r)%Q, (c + r)%Q) in
  modify (fun s =>
    set_canvas {| circle_coords := coords; arc_coords := coords;
                  arc_extent := arc_extent (canvas s);
                  arc_outline := arc_outline (canvas s);
                  text := text (canvas s) |} s).

(** [canvas.itemconfig(self.arc, outline=.., extent=..)] and
    [canvas.itemconfig(self.text, text=..)]. *)
Definition itemconfig_arc (outline : string) (extent : Q) : M unit :=
  modify (fun s =>
    set_canvas {| circle_coords := circle_coords (canvas s);
                  arc_coords := arc_coords (canvas s);
                  arc_extent := extent; arc_outline := outline;
                  text := text (canvas s) |} s).
Definition itemconfig_text (t : canvas_text) : M unit :=
  modify (fun s =>
    set_canvas {| circle_coords := circle_coords (canvas s);
                  arc_coords := arc_coords (canvas s);
                  arc_extent := arc_extent (canvas s);
                  arc_outline := arc_outline (canvas s);
                  text := t |} s).

Definition _update_visuals (prog rem : Q) (phase : string) : M unit :=
  let ext := py_min 359.99 (359.99 * prog) in
  color ← lift (py_getitem PHASE_COLORS phase);
  itemconfig_arc color ext;;
  itemconfig_text (PhaseText (capitalize phase) rem);;
  f ← lift (py_getitem SCALE_FACTORS phase);
  _update_circle_size (f prog).

Definition reset_visuals : M unit :=
  modify (set_progress 0);;
  modify (set_current_phase "exhale");;
  color ← lift (py_getitem PHASE_COLORS "inhale");
  itemconfig_arc color 0;;
  itemconfig_text ReadyText;;
  _update_circle_size 1.0.

Definition _run_breathing_cycle : M unit :=
  s ← get;
  if negb (is_running s) then mret tt else
  pat ← lift (py_getitem patterns (selected_pattern s));
  let total := py_sum (phases pat) in
  p ← lift (advance (progress s) (inject_Z UPDATE_INTERVAL) pat
              (breath_pace s));
  modify (set_progress p);;
  r ← lift (_calc_phase_progress p pat total);
  let '(phase, prog, rem) := r in
  modify (set_current_phase phase);;
  _update_visuals prog rem phase;;
  _ ← after UPDATE_INTERVAL cb_run_breathing_cycle;
  mret tt.

Definition stop_session : M unit :=
  s ← get;
  (if is_running s then
     modify (set_is_running false);;
     match scheduled_end s with
     | Some id => after_cancel id
     | None => mret tt
     end;;
     modify (set_scheduled_end None)
   else mret tt);;
  reset_visuals.

Definition config_start_stop_button (t : string) : M unit :=
  modify (fun s =>
    set_widgets {| start_stop_button := t;
                   breath_scale_state := breath_scale_state (widgets s);
                   breath_pace_label_style :=
                     breath_pace_label_style (widgets s);
                   breath_pace_label := breath_pace_label (widgets s);
                   session_duration_label :=
                     session_duration_label (widgets s) |} s).

Definition toggle_session : M unit :=
  s ← get;
  let running := negb (is_running s) in
  modify (set_is_running running);;
  config_start_stop_button (if running then "Stop" else "Start");;
  if running then
    let ms := py_int (session_duration s * 60 * 1000) in
    id ← after ms cb_stop_session;
    modify (set_scheduled_end (Some id));;
    _run_breathing_cycle
  else stop_session.

Definition _handle_pattern_change : M unit :=
  s ← get;
  p ← lift (py_getitem patterns (selected_pattern s));
  let state := if uses_pace p then "normal" else "disabled" in
  modify (fun s =>
    set_widgets {| start_stop_button := start_stop_button (widgets s);
                   breath_scale_state := state;
                   breath_pace_label_style :=
                     if uses_pace p then "TLabel" else "Dis.TLabel";
                   breath_pace_label := breath_pace_label (widgets s);
                   session_duration_label :=
                     session_duration_label (widgets s) |} s).

Definition config_labels (pace_l dur_l : label_text) : M unit :=
  modify (fun s =>
    set_widgets {| start_stop_button := start_stop_button (widgets s);
                   breath_scale_state := breath_scale_state (widgets s);
                   breath_pace_label_style :=
                     breath_pace_label_style (widgets s);
                   breath_pace_label := pace_l;
                   session_duration_label := dur_l |} s).

Definition reset_settings : M unit :=
  stop_session;;
  modify (set_breath_pace DEFAULT_BREATH_PACE);;
  modify (set_session_duration DEFAULT_SESSION_DURATION);;
  modify (set_selected_pattern "Balanced (1:1)");;
  s ← get;
  config_labels (LabelText DEFAULT_BREATH_PACE "bpm")
                (session_duration_label (widgets s));;
  s ← get;
  config_labels (breath_pace_label (widgets s))
                (LabelText DEFAULT_SESSION_DURATION "min");;
  _handle_pattern_change.

(** *** The slider handler *)

(** The two sliders [_create_scale] builds: each pairs a [DoubleVar] with
    the label that shows it. *)
Inductive slider : Set :=
  | breath_scale
  | session_scale.

Definition var_value (w : slider) (s : App) : Q :=
  match w with
  | breath_scale => breath_pace s
  | session_scale => session_duration s
  end.

Definition var_get (w : slider) : M Q :=
  s ← get;
  mret (var_value w s).

Definition var_set (w : slider) (v : Q) : M unit :=
  match w with
  | breath_scale => modify (set_breath_pace v)
  | session_scale => modify (set_session_duration v)
  end.

Definition label_config (w : slider) (t : label_text) : M unit :=
  s ← get;
  match w with
  | breath_scale => config_labels t (session_duration_label (widgets s))
  | session_scale => config_labels (breath_pace_label (widgets s)) t
  end.

(** The [value] Tk passes to the slider command, by what [float(value)]
    makes of it: a finite number, or text that [float] rejects (as it does
    for a nan or an infinity, which [round] rejects). *)
Inductive scale_value : Type :=
  | Numeric (q : Q)
  | Rejected.

Definition py_float (value : scale_value) : py Q :=
  match value with
  | Numeric q => Ok q
  | Rejected => Raise ValueError
  end.

(** [try: body / except: handler] with a bare [except]. *)
Definition try_except {A : Type} (body handler : M A) : M A := fun s =>
  match body s with
  | Done a s' => Done a s'
  | Raised _ s' => handler s'
  end.

Definition _update_scale (value : scale_value) (var : slider)
    (mn mx step : Q) (unit : string) : M Datatypes.unit :=
  try_except
    (x ← lift (py_float value);
     y ← lift (py_div x step);
     n ← lift (py_round_float y);
     let scaled := (inject_Z n * step)%Q in
     let clamped := py_max mn (py_min scaled mx) in
     var_set var clamped;;
     label_config var (LabelText clamped unit))
    (v ← var_get var;
     var_set var v;;
     bell).

(** The [command] that [_create_scale] gives each slider, with the bounds,
    step and unit [_create_widgets] passes. *)
Definition scale_min (w : slider) : Q :=
  match w with
  | breath_scale => MIN_BREATH_PACE
  | session_scale => MIN_SESSION_DURATION
  end.
Definition scale_max (w : slider) : Q :=
  match w with
  | breath_scale => MAX_BREATH_PACE
  | session_scale => MAX_SESSION_DURATION
  end.
Definition scale_unit (w : slider) : string :=
  match w with
  | breath_scale => "bpm"
  | session_scale => "min"
  end.
Definition scale_command (w : slider) (v : scale_value) : M unit :=
  _update_scale v w (scale_min w) (scale_max w) 0.5 (scale_unit w).

(** *** The main loop and the initial state *)

Definition run_callback (cb : callback) : M unit :=
  match cb with
  | cb_stop_session => stop_session
  | cb_run_breathing_cycle => _run_breathing_cycle
  end.

(** The main loop runs the queued callback [id] when it is due: the entry
    leaves the queue and the callback is called. *)
Definition fire (id : nat) : M unit :=
  s ← get;
  match list_find (fun e => e.1 = id) (after_queue (master s)) with
  | Some (_, (_, (_, cb))) => after_cancel id;; run_callback cb
  | None => mret tt
  end.

(** The object as [_create_widgets] leaves it, before [__init__] calls
    [reset_visuals]. *)
Definition created : App :=
  let c := inject_Z (CANVAS_SIZE / 2) in
  let r := (c - inject_Z CIRCLE_PADDING)%Q in
  let coords := ((c - r)%Q, (c - r)%Q, (c + r)%Q, (c + r)%Q) in
  {| selected_pattern := "Balanced (1:1)";
     breath_pace := DEFAULT_BREATH_PACE;
     session_duration := DEFAULT_SESSION_DURATION;
     is_running := false;
     current_phase := "exhale";
     progress := 0;
     scheduled_end := None;
     canvas := {| circle_coords := coords; arc_coords := coords;
                  arc_extent := 0; arc_outline := "#3498db";
                  text := ReadyText |};
     widgets := {| start_stop_button := "Start";
                   breath_scale_state := "normal";
                   breath_pace_label_style := "";
                   breath_pace_label := LabelText DEFAULT_BREATH_PACE "bpm";
                   session_duration_label :=
                     LabelText DEFAULT_SESSION_DURATION "min" |};
     master := {| next_after := 0; after_queue := []; bells := 0 |} |}.

Definition state_of {A : Type} (r : result A) : App :=
  match r with
  | Done _ s => s
  | Raised _ s => s
  end.

(** The object at the end of [__init__]. *)
Definition init : App := state_of (reset_visuals created).

End BreathingApp.

(** ** The engine over binary64 numbers *)

Module Binary64.

#[local] Set Warnings "-inexact-float".

Definition py_div (x y : float) : py float :=
  if (y =? 0)%float then Raise ZeroDivisionError else Ok (x / y)%float.

Fixpoint phase_loop (t : float) (lbls : list string) (i : nat) (c : float)
    (ds : list float) : py (string * float * float) :=
  match ds with
  | [] =>
      lbl ← py_last lbls;
      Ok (lbl, 1.0%float, 0.0%float)
  | d :: ds' =>
      if (t <? c + d)%float then
        let e := (t - c)%float in
        lbl ← py_index lbls i;
        f ← py_div e d;
        Ok (lbl, f, (d - e)%float)
      else phase_loop t lbls (S i) (c + d)%float ds'
  end.

Definition _calc_phase_progress (norm : float) (phases : list float)
    (labels : list string) (total : float) : py (string * float * float) :=
  let t := (norm * total)%float in
  phase_loop t labels 0 0%float phases.

Definition scale_inhale (p : float) : float := (0.2 + 0.8 * p)%float.
Definition scale_exhale (p : float) : float := (1.0 - 0.8 * p)%float.
Definition scale_hold (_ : float) : float := 1.0%float.

End Binary64.

Import BreathingApp.

(** ** Vocabulary of the specification *)

(** The invariant of the data model: as many labels as phases, at least
    one, every duration positive. *)
Definition valid_pattern (pat : BreathingPattern) : Prop :=
  length (phases pat) = length (labels pat) /\
  phases pat <> [] /\
  Forall (fun d => (0 < d)%Q) (phases pat).

(** The three phase names. *)
Definition known_labels : gset string := {[ "inhale"; "hold"; "exhale" ]}.

(** The two patterns the scenarios of the specification use. *)
Definition balanced : BreathingPattern :=
  {| phases := [1; 1]%Q; uses_pace := true;
     labels := ["inhale"; "exhale"] |}.
Definition four_seven_eight : BreathingPattern :=
  {| phases := [4; 7; 8]%Q; uses_pace := false;
     labels := ["inhale"; "hold"; "exhale"] |}.

(** A running session: the object after the first press of the start
    button, and after the second press, which stops it. *)
Definition started : App := state_of (toggle_session init).
Definition stopped_by_button : App := state_of (toggle_session started).

(** A tick is waiting in the [after] queue. *)
Definition tick_pending (s : App) : Prop :=
  exists (id : nat) (ms : Z),
    (id, (ms, cb_run_breathing_cycle)) ∈ after_queue (master s).

(** A session-end callback is waiting in the [after] queue. *)
Definition end_pending (s : App) : Prop :=
  exists (id : nat) (ms : Z),
    (id, (ms, cb_stop_session)) ∈ after_queue (master s).

(** Stopping as the specification words it: the flag is cleared and
    neither a tick nor a session-end callback stays pending. *)
Definition stop_cancels_all (s : App) : Prop :=
  exists s' : App,
    stop_session s = Done tt s' /\
    is_running s' = false /\
    ~ tick_pending s' /\ ~ end_pending s'.

(** Recovery from a slider input as the specification words it: the
    variable ends within the bounds and the bell rings, and nothing is
    raised. *)
Definition clamps_and_alerts (w : slider) (v : scale_value) (s : App)
    : Prop :=
  exists s' : App,
    scale_command w v s = Done tt s' /\
    (scale_min w <= var_value w s' /\ var_value w s' <= scale_max w)%Q /\
    bells (master s') = S (bells (master s)).

(** A slider input is invalid when it is no number within the bounds. *)
Definition invalid_input (w : slider) (v : scale_value) : Prop :=
  match v with
  | Numeric q => ~ (scale_min w <= q /\ q <= scale_max w)%Q
  | Rejected => True
  end.

(** A tick can run: the selection names a pattern of the table, and the
    pace is not 0 if that pattern is paced. *)
Definition can_tick (s : App) : Prop :=
  exists pat : BreathingPattern,
    patterns !! selected_pattern s = Some pat /\
    (uses_pace pat = true -> ~ (breath_pace s == 0)%Q).

(** The bounding box [_update_circle_size] computes for a scale. *)
Definition circle_box (scale : Q) : Q * Q * Q * Q :=
  let c := inject_Z (CANVAS_SIZE / 2) in
  let r := ((c - inject_Z CIRCLE_PADDING) * scale)%Q in
  ((c - r)%Q, (c - r)%Q, (c + r)%Q, (c + r)%Q).

(** A bounding box that keeps the padding to the canvas border. *)
Definition inside_canvas (b : Q * Q * Q * Q) : Prop :=
  let '(x0, y0, x1, y1) := b in
  (inject_Z CIRCLE_PADDING <= x0 /\ x0 <= x1 /\
   x1 <= inject_Z (CANVAS_SIZE - CIRCLE_PADDING) /\
   inject_Z CIRCLE_PADDING <= y0 /\ y0 <= y1 /\
   y1 <= inject_Z (CANVAS_SIZE - CIRCLE_PADDING))%Q.

(** The settings, the widgets and the bell are the same in two states. *)
Definition same_settings (s s' : App) : Prop :=
  selected_pattern s' = selected_pattern s /\
  breath_pace s' = breath_pace s /\
  session_duration s' = session_duration s /\
  widgets s' = widgets s /\
  bells (master s') = bells (master s).

(** The callback the main loop runs for the identifier [id]: the first
    queued entry that carries it. *)
Definition due (s : App) (id : nat) (cb : callback) : Prop :=
  exists (i : nat) (ms : Z),
    list_find (fun e => e.1 = id) (after_queue (master s))
      = Some (i, (id, (ms, cb))).

(** The state a tick leaves: progress [p], phase [lbl] drawn with the
    colour [color], the fraction [f], the remainder [r] and the scale
    [sf], and the next tick queued. *)
Definition ticked (s : App) (p f r : Q) (lbl color : string) (sf : Q)
    : App :=
  state_of
    (after UPDATE_INTERVAL cb_run_breathing_cycle
       (set_canvas
          {| circle_coords := circle_box sf; arc_coords := circle_box sf;
             arc_extent := py_min 359.99 (359.99 * f);
             arc_outline := color;
             text := PhaseText (capitalize lbl) r |}
          (set_current_phase lbl (set_progress p s)))).

(** * Properties of the cycle progress engine *)

Section Engine.
Local Open Scope Q_scope.

Lemma Qltb_lt (x y : Q) : Qltb x y = true <-> x < y.
Proof.
  unfold Qltb. rewrite negb_true_iff.
  destruct (Qle_bool y x) eqn:E.
  - apply Qle_bool_iff in E. split; [discriminate | lra].
  - split; [intros _ | reflexivity].
    destruct (Qlt_le_dec x y) as [H | H]; [exact H |].
    apply Qle_bool_iff in H. congruence.
Qed.

Lemma Qltb_ge (x y : Q) : Qltb x y = false <-> y <= x.
Proof.
  destruct (Qltb x y) eqn:E.
  - apply Qltb_lt in E. split; [discriminate | lra].
  - split; [intros _ | reflexivity].
    destruct (Qlt_le_dec x y) as [H | H]; [| exact H].
    apply Qltb_lt in H. congruence.
Qed.

Lemma py_div_ok (x y : Q) : ~ y == 0 -> py_div x y = Ok (x / y).
Proof.
  intros H. unfold py_div.
  destruct (Qeq_bool y 0) eqn:E; [| reflexivity].
  apply Qeq_bool_iff in E. contradiction.
Qed.

Lemma py_mod1_range (x : Q) : 0 <= py_mod1 x /\ py_mod1 x < 1.
Proof.
  unfold py_mod1.
  pose proof (Qfloor_le x) as Hlo.
  pose proof (Qlt_floor x) as Hhi.
  rewrite inject_Z_plus in Hhi.
  change (inject_Z 1) with 1 in Hhi.
  split; lra.
Qed.


(** The running offset only grows over durations that are not negative. *)
Lemma offset_le (ds : list Q) :
  forall c : Q, Forall (fun d => 0 <= d) ds -> c <= fold_left Qplus ds c.
Proof.
  induction ds as [| d ds IH]; intros c Hds; simpl.
  - lra.
  - inversion Hds as [| ? ? Hd Hds']; subst.
    specialize (IH (c + d) Hds'). lra.
Qed.

Lemma positive_nonneg (ds : list Q) :
  Forall (fun d => 0 < d) ds -> Forall (fun d => 0 <= d) ds.
Proof.
  intros H. eapply Forall_impl; [exact H |].
  intros d Hd. simpl in Hd. lra.
Qed.

Section Loop.
Variables (t : Q) (lbls : list string).



(** Past the last phase the loop ends and the fallback is returned. *)
Lemma phase_loop_fallback (ds : list Q) :
  forall (i : nat) (c : Q),
    Forall (fun x => 0 <= x) ds ->
    fold_left Qplus ds c <= t ->
    phase_loop t lbls i c ds = (lbl ← py_last lbls; Ok (lbl, 1.0, 0.0)).
Proof.
  induction ds as [| d ds IH]; intros i c Hnn Ht; simpl in *.
  - reflexivity.
  - inversion Hnn as [| ? ? Hd Hnn']; subst.
    pose proof (offset_le ds (c + d) Hnn') as Hge.
    assert (Qltb t (c + d) = false) as -> by (apply Qltb_ge; lra).
    apply IH; assumption.
Qed.

(** Inside the cycle the loop returns from some phase, with a fraction in
    [0, 1) and a positive remainder. *)
Lemma phase_loop_inside (ds : list Q) :
  forall (i : nat) (c : Q),
    Forall (fun x => 0 < x) ds ->
    length lbls = (i + length ds)%nat ->
    c <= t ->
    t < fold_left Qplus ds c ->
    exists lbl f r,
      phase_loop t lbls i c ds = Ok (lbl, f, r) /\
      lbl ∈ lbls /\ 0 <= f /\ f < 1 /\ 0 < r.
Proof.
  induction ds as [| d ds IH]; intros i c Hpos Hlen Hlo Hhi; simpl in *.
  - lra.
  - inversion Hpos as [| ? ? Hd Hpos']; subst.
    destruct (Qltb t (c + d)) eqn:E.
    + apply Qltb_lt in E.
      destruct (lookup_lt_is_Some_2 lbls i) as [lbl Hlbl]; [lia |].
      exists lbl, ((t - c) / d), (d - (t - c)).
      unfold py_index. rewrite Hlbl. simpl.
      rewrite py_div_ok by lra.
      split; [reflexivity |].
      split; [eapply list_elem_of_lookup_2; exact Hlbl |].
      split; [apply Qle_shift_div_l; lra |].
      split; [apply Qlt_shift_div_r; lra | lra].
    + apply Qltb_ge in E.
      apply IH; try assumption; [lia].
Qed.

(** Whatever [t] is, the loop returns one of the labels. *)
Lemma phase_loop_label (ds : list Q) :
  forall (i : nat) (c : Q),
    Forall (fun x => 0 < x) ds ->
    length lbls = (i + length ds)%nat ->
    lbls <> [] ->
    exists lbl f r,
      phase_loop t lbls i c ds = Ok (lbl, f, r) /\ lbl ∈ lbls.
Proof.
  induction ds as [| d ds IH]; intros i c Hpos Hlen Hne; simpl in *.
  - destruct (proj2 (last_is_Some lbls) Hne) as [lbl Hlast].
    exists lbl, 1.0, 0.0. unfold py_last. rewrite Hlast.
    split; [reflexivity | eapply last_Some_elem_of; exact Hlast].
  - inversion Hpos as [| ? ? Hd Hpos']; subst.
    destruct (Qltb t (c + d)) eqn:E.
    + destruct (lookup_lt_is_Some_2 lbls i) as [lbl Hlbl]; [lia |].
      exists lbl, ((t - c) / d), (d - (t - c)).
      unfold py_index. rewrite Hlbl. simpl.
      rewrite py_div_ok by lra.
      split; [reflexivity | eapply list_elem_of_lookup_2; exact Hlbl].
    + apply IH; try assumption; lia.
Qed.

End Loop.

Lemma valid_labels_nonempty (pat : BreathingPattern) :
  valid_pattern pat -> labels pat <> [].
Proof.
  intros (Hlen & Hne & _) Hnil. rewrite Hnil in Hlen.
  destruct (phases pat); [congruence | discriminate].
Qed.

Lemma valid_sum_positive (pat : BreathingPattern) :
  valid_pattern pat -> 0 < py_sum (phases pat).
Proof.
  intros (_ & Hne & Hpos). unfold py_sum.
  destruct (phases pat) as [| d ds]; [congruence |].
  inversion Hpos as [| ? ? Hd Hpos']; subst. simpl.
  pose proof (offset_le ds (0 + d) (positive_nonneg ds Hpos')). lra.
Qed.

(** Every entry of the pattern table satisfies the invariant, and its
    labels are keys of the two per-phase dictionaries. *)
Lemma patterns_valid :
  map_Forall (fun _ pat => valid_pattern pat /\
                           Forall (fun l => l ∈ known_labels) (labels pat))
             patterns.
Proof.
  unfold patterns.
  repeat apply map_Forall_insert_2; try apply map_Forall_empty;
    (split; [split; [reflexivity | split; [discriminate |]] |]);
    repeat constructor; unfold known_labels; set_solver.
Qed.

End Engine.

Section EngineSpec.
Local Open Scope Q_scope.

(** C1 (defect of the code).  For the paced pattern "Balanced (1:1)" at
    progress 0.25 and the default pace of 5.5 breaths per minute
    [_calc_phase_progress] returns ("inhale", 0.5, 0.5): the remainder is
    [d - (t - c)] in the units of [phases], and [_update_visuals] shows it
    in the text that ends in "s".  In seconds the remainder is
    [(d - (t - c)) * (cycleSeconds / totalUnits)], which is 30/11 (about
    2.73) here; the value returned is not that, nor the [0.5 *
    cycleSeconds] of the scenario. *)
Theorem calc_phase_remaining_not_seconds :
  patterns !! "Balanced (1:1)"%string = Some balanced /\
  uses_pace balanced = true /\
  exists f r cycleSeconds : Q,
    resolvePhase 0.25 balanced = Ok ("inhale"%string, f, r) /\
    f == 0.5 /\ r == 0.5 /\
    cycle_time balanced DEFAULT_BREATH_PACE = Ok cycleSeconds /\
    (1 - (0.25 * 2 - 0)) * (cycleSeconds / py_sum (phases balanced))
      == 30 # 11 /\
    ~ r == (1 - (0.25 * 2 - 0)) * (cycleSeconds / py_sum (phases balanced))
    /\
    ~ r == 0.5 * cycleSeconds /\
    forall s : App,
      exists s' : App,
        _update_visuals f r "inhale" s = Done tt s' /\
        text (canvas s') = PhaseText "Inhale" r.
Proof.
  split; [reflexivity |].
  split; [reflexivity |].
  eexists _, _, _.
  split; [vm_compute; reflexivity |].
  split; [reflexivity |].
  split; [reflexivity |].
  split; [vm_compute; reflexivity |].
  split; [reflexivity |].
  split; [intros H; vm_compute in H; discriminate |].
  split; [intros H; vm_compute in H; discriminate |].
  intros s. eexists. split; reflexivity.
Qed.

(** The pace flag is never read by [_calc_phase_progress]. *)
Lemma calc_phase_progress_ignores_pace (ds : list Q) (ls : list string)
    (b b' : bool) (norm total : Q) :
  _calc_phase_progress norm
    {| phases := ds; uses_pace := b; labels := ls |} total =
  _calc_phase_progress norm
    {| phases := ds; uses_pace := b'; labels := ls |} total.
Proof. reflexivity. Qed.

(** C2.  For a pattern that satisfies the invariant and a progress in
    [0, 1), [resolvePhase] returns (raises nothing) a label of the pattern
    and a fraction in [0, 1]; and whenever [t = progress * totalUnits] is
    at or past [totalUnits], so that no phase test succeeds, it returns the
    last label with fraction 1.0 and remainder 0.0. *)
Theorem resolvePhase_total (pat : BreathingPattern) (progress : Q) :
  valid_pattern pat ->
  0 <= progress ->
  progress < 1 ->
  (exists (lbl : string) (f r : Q),
     resolvePhase progress pat = Ok (lbl, f, r) /\
     lbl ∈ labels pat /\ 0 <= f /\ f <= 1) /\
  (exists lbl : string,
     last (labels pat) = Some lbl /\
     forall norm : Q,
       py_sum (phases pat) <= norm * py_sum (phases pat) ->
       resolvePhase norm pat = Ok (lbl, 1.0, 0.0)).
Proof.
  intros Hv H0 H1.
  pose proof (valid_sum_positive pat Hv) as Hsum.
  pose proof (valid_labels_nonempty pat Hv) as Hne.
  destruct Hv as (Hlen & _ & Hpos).
  split.
  - destruct (phase_loop_inside (progress * py_sum (phases pat))
                (labels pat) (phases pat) 0%nat 0 Hpos)
      as (lbl & f & r & Hres & Hin & Hf0 & Hf1 & _).
    + simpl. symmetry. exact Hlen.
    + apply Qmult_le_0_compat; lra.
    + fold (py_sum (phases pat)). nra.
    + exists lbl, f, r. repeat split; try assumption. lra.
  - destruct (proj2 (last_is_Some (labels pat)) Hne) as [lbl Hlast].
    exists lbl. split; [exact Hlast |].
    intros norm Hge. unfold resolvePhase, _calc_phase_progress.
    rewrite phase_loop_fallback.
    + unfold py_last. rewrite Hlast. reflexivity.
    + apply positive_nonneg. exact Hpos.
    + exact Hge.
Qed.

Lemma resolvePhase_total_witness :
  (exists (lbl : string) (f r : Q),
     resolvePhase 0.5 four_seven_eight = Ok (lbl, f, r) /\
     lbl ∈ labels four_seven_eight /\ 0 <= f /\ f <= 1) /\
  (exists lbl : string,
     last (labels four_seven_eight) = Some lbl /\
     forall norm : Q,
       py_sum (phases four_seven_eight)
         <= norm * py_sum (phases four_seven_eight) ->
       resolvePhase norm four_seven_eight = Ok (lbl, 1.0, 0.0)).
Proof.
  apply (resolvePhase_total four_seven_eight 0.5).
  - split; [reflexivity | split; [discriminate |]].
    repeat constructor.
  - vm_compute. discriminate.
  - reflexivity.
Defined.





(** C5.  The scale factor is [0.2 + 0.8 * p] for "inhale",
    [1.0 - 0.8 * p] for "exhale" and [1.0] for "hold", for every [p]; it is
    0.2 for "inhale" at 0.0 and 1.0 for "inhale" at 1.0. *)
Theorem scaleFactor_formulas (p : Q) :
  scaleFactor "inhale" p = Ok (0.2 + 0.8 * p) /\
  scaleFactor "exhale" p = Ok (1.0 - 0.8 * p) /\
  scaleFactor "hold" p = Ok 1.0 /\
  (exists v : Q, scaleFactor "inhale" 0.0 = Ok v /\ v == 0.2) /\
  (exists v : Q, scaleFactor "inhale" 1.0 = Ok v /\ v == 1.0).
Proof.
  repeat split; try reflexivity;
    eexists; (split; [reflexivity |]); reflexivity.
Qed.

(** C10.  For every pattern of the table and every progress value, the
    label [_calc_phase_progress] returns is one of "inhale", "hold" and
    "exhale"; these three are exactly the keys of [PHASE_COLORS] and of
    [SCALE_FACTORS], so both lookups of [_update_visuals] succeed and it
    raises nothing. *)
Theorem calc_label_is_key (name : string) (pat : BreathingPattern)
    (norm : Q) :
  patterns !! name = Some pat ->
  dom PHASE_COLORS = known_labels /\
  dom SCALE_FACTORS = known_labels /\
  exists (lbl : string) (f r : Q),
    _calc_phase_progress norm pat (py_sum (phases pat)) = Ok (lbl, f, r) /\
    lbl ∈ known_labels /\
    succeeds (py_getitem PHASE_COLORS lbl) /\
    succeeds (py_getitem SCALE_FACTORS lbl) /\
    forall s : App, exists s' : App, _update_visuals f r lbl s = Done tt s'.
Proof.
  intros Hpat.
  destruct (patterns_valid name pat Hpat) as [Hv Hkeys].
  pose proof (valid_labels_nonempty pat Hv) as Hne.
  destruct Hv as (Hlen & _ & Hpos).
  split; [reflexivity | split; [reflexivity |]].
  destruct (phase_loop_label (norm * py_sum (phases pat)) (labels pat)
              (phases pat) 0%nat 0 Hpos)
    as (lbl & f & r & Hres & Hin); [simpl; congruence | exact Hne |].
  exists lbl, f, r. split; [exact Hres |].
  rewrite Forall_forall in Hkeys. specialize (Hkeys lbl Hin).
  split; [exact Hkeys |].
  unfold known_labels in Hkeys.
  apply elem_of_union in Hkeys as [Hkeys | Hkeys];
    [apply elem_of_union in Hkeys as [Hkeys | Hkeys] |];
    apply elem_of_singleton in Hkeys; subst lbl;
    (split; [exact I | split; [exact I |]]);
    intros s; eexists; reflexivity.
Qed.

Lemma calc_label_is_key_witness :
  dom PHASE_COLORS = known_labels /\
  dom SCALE_FACTORS = known_labels /\
  exists (lbl : string) (f r : Q),
    _calc_phase_progress 0.75 four_seven_eight
      (py_sum (phases four_seven_eight)) = Ok (lbl, f, r) /\
    lbl ∈ known_labels /\
    succeeds (py_getitem PHASE_COLORS lbl) /\
    succeeds (py_getitem SCALE_FACTORS lbl) /\
    forall s : App, exists s' : App, _update_visuals f r lbl s = Done tt s'.
Proof.
  apply (calc_label_is_key "4-7-8 (+hold)" four_seven_eight 0.75).
  reflexivity.
Defined.

#[local] Set Warnings "-inexact-float".

(** The scenarios evaluated over binary64 numbers: the rounding of
    [4 / 19 * 19] gives exactly 4, and [0.2 + 0.8 * 1.0] exactly 1. *)
Example boundary_scenario_binary64 :
  Binary64._calc_phase_progress (4 / 19)%float [4; 7; 8]%float
    ["inhale"; "hold"; "exhale"] 19%float
  = Ok ("hold"%string, 0%float, 7%float).
Proof. vm_compute. reflexivity. Qed.

Example quarter_scenario_binary64 :
  Binary64._calc_phase_progress 0.25%float [1; 1]%float
    ["inhale"; "exhale"] 2%float
  = Ok ("inhale"%string, 0.5%float, 0.5%float).
Proof. vm_compute. reflexivity. Qed.

Example scale_scenarios_binary64 :
  Binary64.scale_inhale 0.0%float = 0.2%float /\
  Binary64.scale_inhale 1.0%float = 1.0%float /\
  Binary64.scale_hold 0.3%float = 1.0%float.
Proof. vm_compute. repeat split. Qed.

End EngineSpec.

(** * Properties of the session controller *)

Section Session.

Local Open Scope Q_scope.

Ltac stop_cases s :=
  unfold stop_session; cbv [mbind M_bind get];
  destruct (is_running s) eqn:?; destruct (scheduled_end s) eqn:?;
  cbv [modify mbind M_bind mret M_ret].

Lemma reset_visuals_done (s : App) :
  reset_visuals s = Done tt (state_of (reset_visuals s)).
Proof. reflexivity. Qed.

Lemma reset_visuals_master (s : App) :
  master (state_of (reset_visuals s)) = master s.
Proof. reflexivity. Qed.

Lemma stop_session_done (s : App) :
  stop_session s = Done tt (state_of (stop_session s)).
Proof. stop_cases s; reflexivity. Qed.

Lemma stop_session_not_running (s : App) :
  is_running (state_of (stop_session s)) = false.
Proof. stop_cases s; first [reflexivity | eassumption]. Qed.

Lemma stop_session_stopped (s : App) :
  is_running s = false -> stop_session s = reset_visuals s.
Proof.
  intros H. unfold stop_session. cbv [mbind M_bind get].
  rewrite H. reflexivity.
Qed.

(** A second call changes nothing. *)
Lemma stop_session_idempotent (s : App) :
  stop_session (state_of (stop_session s)) = stop_session s.
Proof.
  rewrite (stop_session_stopped (state_of (stop_session s)))
    by apply stop_session_not_running.
  stop_cases s; reflexivity.
Qed.

(** Called while the flag is set, [stop_session] leaves the four session
    fields at their rest values. *)
Lemma stop_session_from_running (s : App) :
  is_running s = true ->
  let s' := state_of (stop_session s) in
  is_running s' = false /\ scheduled_end s' = None /\
  progress s' = 0 /\ current_phase s' = "exhale"%string.
Proof. intros H. stop_cases s; try discriminate; repeat split. Qed.

(** A tick that runs while the flag is cleared does nothing. *)
Lemma run_breathing_cycle_stopped (s : App) :
  is_running s = false -> _run_breathing_cycle s = Done tt s.
Proof.
  intros H. unfold _run_breathing_cycle. cbv [mbind M_bind get].
  rewrite H. reflexivity.
Qed.

(** A tick of a running session: the progress becomes what [advance]
    returns for the update interval, the phase what [resolvePhase] returns
    for it, and the next tick is queued. *)
Lemma run_breathing_cycle_running (s : App) (pat : BreathingPattern)
    (p f r : Q) (lbl : string) :
  is_running s = true ->
  patterns !! selected_pattern s = Some pat ->
  advance (progress s) (inject_Z UPDATE_INTERVAL) pat (breath_pace s)
    = Ok p ->
  resolvePhase p pat = Ok (lbl, f, r) ->
  exists s' : App,
    _run_breathing_cycle s = Done tt s' /\
    progress s' = p /\ current_phase s' = lbl /\
    is_running s' = true /\
    after_queue (master s') =
      after_queue (master s)
        ++ [(next_after (master s), (UPDATE_INTERVAL, cb_run_breathing_cycle))].
Proof.
  intros Hrun Hpat Hadv Hres.
  assert (lbl ∈ known_labels) as Hkey.
  { destruct (patterns_valid _ _ Hpat) as [Hv Hkeys].
    pose proof (valid_labels_nonempty pat Hv) as Hne.
    destruct Hv as (Hlen & _ & Hpos).
    destruct (phase_loop_label (p * py_sum (phases pat)) (labels pat)
                (phases pat) 0%nat 0 Hpos)
      as (lbl' & f' & r' & Hres' & Hin); [simpl; congruence | exact Hne |].
    unfold resolvePhase, _calc_phase_progress in Hres.
    rewrite Hres in Hres'. injection Hres' as <- _ _.
    rewrite Forall_forall in Hkeys. apply Hkeys. exact Hin. }
  unfold _run_breathing_cycle. cbv [mbind M_bind get lift].
  rewrite Hrun. simpl. unfold py_getitem. rewrite Hpat, Hadv.
  unfold resolvePhase in Hres. cbv [modify]. rewrite Hres.
  unfold known_labels in Hkey.
  apply elem_of_union in Hkey as [Hkey | Hkey];
    [apply elem_of_union in Hkey as [Hkey | Hkey] |];
    apply elem_of_singleton in Hkey; subst lbl;
    eexists; (split; [reflexivity |]); repeat split;
    first [exact Hrun | reflexivity].
Qed.

Lemma stop_session_resets_fields (s : App) :
  progress (state_of (stop_session s)) = 0 /\
  current_phase (state_of (stop_session s)) = "exhale"%string.
Proof. stop_cases s; split; reflexivity. Qed.

(** [reset_settings] stops the session and so resets the cycle state too. *)
Lemma reset_settings_resets (s : App) :
  exists s' : App,
    reset_settings s = Done tt s' /\
    is_running s' = false /\
    progress s' = 0 /\ current_phase s' = "exhale"%string.
Proof.
  pose proof (stop_session_not_running s) as Hrun.
  destruct (stop_session_resets_fields s) as [Hprog Hphase].
  unfold reset_settings. cbv [mbind M_bind].
  rewrite stop_session_done.
  generalize dependent (state_of (stop_session s)). intros s0 Hrun Hprog Hphase.
  eexists. split; [vm_compute; reflexivity |].
  repeat split; assumption.
Qed.

(** C7 (as the code has it).  [stop_session] leaves the running flag
    cleared.  Entered with the flag set, it cancels the session-end
    callback whose identifier is in [scheduled_end] and sets
    [scheduled_end] to [None]; it cancels no tick: every other queued
    callback stays queued.  A tick that runs while the flag is cleared
    returns at once: the state, and with it the [after] queue, is
    unchanged. *)
Theorem stop_session_cooperative (s t : App) :
  is_running s = true ->
  is_running t = false ->
  (forall u : App,
     exists u' : App, stop_session u = Done tt u' /\ is_running u' = false)
  /\
  (exists s' : App,
     stop_session s = Done tt s' /\
     is_running s' = false /\
     scheduled_end s' = None /\
     (forall (id : nat) (ms : Z) (cb : callback),
        scheduled_end s = Some id ->
        (id, (ms, cb)) ∉ after_queue (master s')) /\
     (forall (id : nat) (ms : Z) (cb : callback),
        (id, (ms, cb)) ∈ after_queue (master s) ->
        scheduled_end s <> Some id ->
        (id, (ms, cb)) ∈ after_queue (master s'))) /\
  _run_breathing_cycle t = Done tt t.
Proof.
  intros Hs Ht. split; [| split].
  - intros u. exists (state_of (stop_session u)).
    split; [apply stop_session_done | apply stop_session_not_running].
  - exists (state_of (stop_session s)).
    split; [apply stop_session_done |].
    destruct (stop_session_from_running s Hs) as (Hr & He & _).
    split; [exact Hr | split; [exact He |]].
    stop_cases s; try discriminate; simpl; split.
    + intros id ms cb [= <-] Hin.
      apply list_elem_of_filter in Hin as [Hne _]. simpl in Hne. congruence.
    + intros id ms cb Hin Hne. apply list_elem_of_filter.
      split; [simpl; congruence | exact Hin].
    + intros id ms cb [=].
    + intros id ms cb Hin _. exact Hin.
  - apply run_breathing_cycle_stopped. exact Ht.
Qed.

Lemma stop_session_cooperative_witness :
  (forall u : App,
     exists u' : App, stop_session u = Done tt u' /\ is_running u' = false)
  /\
  (exists s' : App,
     stop_session started = Done tt s' /\
     is_running s' = false /\
     scheduled_end s' = None /\
     (forall (id : nat) (ms : Z) (cb : callback),
        scheduled_end started = Some id ->
        (id, (ms, cb)) ∉ after_queue (master s')) /\
     (forall (id : nat) (ms : Z) (cb : callback),
        (id, (ms, cb)) ∈ after_queue (master started) ->
        scheduled_end started <> Some id ->
        (id, (ms, cb)) ∈ after_queue (master s'))) /\
  _run_breathing_cycle init = Done tt init.
Proof.
  apply (stop_session_cooperative started init); vm_compute; reflexivity.
Defined.

(** C7 (as stated) fails: stopping the session that the start button
    began leaves its tick in the [after] queue. *)
Lemma stop_session_keeps_pending_tick :
  is_running started = true /\ ~ stop_cancels_all started.
Proof.
  split; [vm_compute; reflexivity |].
  intros (s' & Hstop & _ & Htick & _).
  apply Htick.
  rewrite stop_session_done in Hstop. injection Hstop as <-.
  exists 1%nat, 16%Z. vm_compute. apply list_elem_of_here.
Qed.

(** C8.  Whatever the state before, [stop_session] returns with
    [progress] at 0 and [current_phase] at "exhale". *)
Theorem stop_session_resets (s : App) :
  exists s' : App,
    stop_session s = Done tt s' /\
    progress s' = 0 /\ current_phase s' = "exhale"%string.
Proof.
  exists (state_of (stop_session s)).
  split; [apply stop_session_done |].
  stop_cases s; split; reflexivity.
Qed.

(** C9 (defect of the code).  The stop branch of [toggle_session] clears
    [is_running] before it calls [stop_session], whose guard then skips the
    cancellation: after that call [scheduled_end] still holds the
    identifier 0 of the session-end callback, which is still queued, and a
    further call of [stop_session] changes neither. *)
Theorem stop_session_after_toggle_keeps_scheduled_end :
  exists mid : App,
    is_running started = true /\
    toggle_session started = stop_session mid /\
    is_running mid = false /\
    scheduled_end mid = Some 0%nat /\
    stop_session mid = Done tt stopped_by_button /\
    is_running stopped_by_button = false /\
    scheduled_end stopped_by_button = Some 0%nat /\
    progress stopped_by_button = 0 /\
    current_phase stopped_by_button = "exhale"%string /\
    end_pending stopped_by_button /\
    stop_session stopped_by_button = Done tt stopped_by_button.
Proof.
  exists (state_of (config_start_stop_button "Start"
                      (set_is_running false started))).
  repeat (split; [vm_compute; reflexivity |]).
  split; [| vm_compute; reflexivity].
  exists 0%nat, 300000%Z. vm_compute. apply list_elem_of_here.
Qed.

(** What the left-over callback does: when the next session runs and the
    callback of the previous one comes due, it stops the new session. *)
Lemma stale_end_callback_stops_next_session :
  exists s1 s2 : App,
    toggle_session stopped_by_button = Done tt s1 /\
    is_running s1 = true /\
    fire 0 s1 = Done tt s2 /\
    is_running s2 = false.
Proof.
  eexists _, _.
  split; [vm_compute; reflexivity |].
  split; [reflexivity |].
  split; [vm_compute; reflexivity | reflexivity].
Qed.

(** *** The slider handler *)

Lemma clamp_spec (mn mx x : Q) :
  mn <= mx ->
  let v := py_max mn (py_min x mx) in
  mn <= v /\ v <= mx /\
  (x < mn -> v == mn) /\ (mx < x -> v == mx) /\
  (mn <= x -> x <= mx -> v == x).
Proof.
  intros H. unfold py_max, py_min.
  destruct (Qltb mx x) eqn:E1;
    [apply Qltb_lt in E1 | apply Qltb_ge in E1].
  - destruct (Qltb mn mx) eqn:E2;
      [apply Qltb_lt in E2 | apply Qltb_ge in E2];
      repeat split; intros; lra.
  - destruct (Qltb mn x) eqn:E2;
      [apply Qltb_lt in E2 | apply Qltb_ge in E2];
      repeat split; intros; lra.
Qed.

Lemma float_finite_iff (x : Q) :
  float_finite x = true <-> - float_overflow < x /\ x < float_overflow.
Proof.
  unfold float_finite. rewrite andb_true_iff, !Qltb_lt. reflexivity.
Qed.

(** The state the handler leaves for a number whose quotient by the step
    is finite: the clamped value stored, the bell silent, the session
    untouched. *)
Lemma update_scale_numeric (q : Q) (var : slider) (mn mx step : Q)
    (unit : string) (s : App) :
  ~ step == 0 ->
  float_finite (q / step) = true ->
  exists s' : App,
    _update_scale (Numeric q) var mn mx step unit s = Done tt s' /\
    var_value var s' =
      py_max mn (py_min (inject_Z (py_round (q / step)) * step) mx) /\
    master s' = master s /\
    is_running s' = is_running s /\ scheduled_end s' = scheduled_end s /\
    progress s' = progress s /\ current_phase s' = current_phase s /\
    canvas s' = canvas s /\ selected_pattern s' = selected_pattern s /\
    match var with
    | breath_scale => session_duration s' = session_duration s
    | session_scale => breath_pace s' = breath_pace s
    end.
Proof.
  intros Hstep Hfin.
  unfold _update_scale, try_except. cbv [mbind M_bind lift]. simpl.
  rewrite py_div_ok by exact Hstep.
  unfold py_round_float. rewrite Hfin.
  destruct var; eexists; (split; [reflexivity |]); repeat split.
Qed.

(** The state the handler leaves when the [try] block raises: for text
    that [float] rejects, for a step of 0, for a quotient beyond the finite
    numbers.  The variable keeps its value and the bell rings once. *)
Lemma update_scale_rings (value : scale_value) (var : slider)
    (mn mx step : Q) (unit : string) (s : App) :
  match value with
  | Numeric q => step == 0 \/ float_finite (q / step) = false
  | Rejected => True
  end ->
  exists s' : App,
    _update_scale value var mn mx step unit s = Done tt s' /\
    var_value var s' = var_value var s /\
    bells (master s') = S (bells (master s)) /\
    after_queue (master s') = after_queue (master s) /\
    is_running s' = is_running s /\ scheduled_end s' = scheduled_end s /\
    progress s' = progress s /\ current_phase s' = current_phase s /\
    canvas s' = canvas s /\ selected_pattern s' = selected_pattern s /\
    match var with
    | breath_scale => session_duration s' = session_duration s
    | session_scale => breath_pace s' = breath_pace s
    end.
Proof.
  intros Hcase.
  unfold _update_scale, try_except. cbv [mbind M_bind lift].
  destruct value as [q |]; simpl.
  - assert (match py_div q step with
            | Ok y => py_round_float y
            | Raise e => Raise e
            end = Raise ZeroDivisionError \/
            match py_div q step with
            | Ok y => py_round_float y
            | Raise e => Raise e
            end = Raise OverflowError) as Hraise.
    { unfold py_div. destruct (Qeq_bool step 0) eqn:E; [left; reflexivity |].
      destruct Hcase as [Hz | Hinf].
      - apply Qeq_bool_iff in Hz. congruence.
      - right. unfold py_round_float. rewrite Hinf. reflexivity. }
    destruct (py_div q step) as [y | e];
      [destruct (py_round_float y) as [n | e] |];
      try (destruct Hraise; discriminate);
      destruct var; eexists; (split; [reflexivity |]); repeat split.
  - destruct var; eexists; (split; [reflexivity |]); repeat split.
Qed.

(** The handler never lets an exception out. *)
Lemma update_scale_never_raises (value : scale_value) (var : slider)
    (mn mx step : Q) (unit : string) (s : App) :
  exists s' : App, _update_scale value var mn mx step unit s = Done tt s'.
Proof.
  unfold _update_scale, try_except. cbv [mbind M_bind lift].
  destruct value as [q |]; simpl.
  - destruct (py_div q step) as [y | e];
      [destruct (py_round_float y) |];
      destruct var; eexists; reflexivity.
  - destruct var; eexists; reflexivity.
Qed.

(** C6 (as the code has it).  A slider command never lets an exception
    out.  An input that converts to a number whose quotient by the step
    0.5 is a finite float is rounded to the step grid and clamped into the
    slider's bounds, to the lower bound from below and to the upper bound
    from above, and the bell stays silent.  An input that does not
    convert, or whose quotient is beyond the finite floats, leaves the
    variable as it was and rings the bell once. *)
Theorem scale_command_recovers (w : slider) (value : scale_value)
    (s : App) :
  exists s' : App,
    scale_command w value s = Done tt s' /\
    match value with
    | Numeric q =>
        let scaled := inject_Z (py_round (q / 0.5)) * 0.5 in
        (- float_overflow < q / 0.5 /\ q / 0.5 < float_overflow ->
         bells (master s') = bells (master s) /\
         scale_min w <= var_value w s' /\
         var_value w s' <= scale_max w /\
         (scaled < scale_min w -> var_value w s' == scale_min w) /\
         (scale_max w < scaled -> var_value w s' == scale_max w) /\
         (scale_min w <= scaled -> scaled <= scale_max w ->
          var_value w s' == scaled)) /\
        (~ (- float_overflow < q / 0.5 /\ q / 0.5 < float_overflow) ->
         bells (master s') = S (bells (master s)) /\
         var_value w s' = var_value w s)
    | Rejected =>
        bells (master s') = S (bells (master s)) /\
        var_value w s' = var_value w s
    end.
Proof.
  unfold scale_command. destruct value as [q |].
  - destruct (float_finite (q / 0.5)) eqn:Hfin.
    + destruct (update_scale_numeric q w (scale_min w) (scale_max w) 0.5
                  (scale_unit w) s) as (s' & Hres & Hv & Hm & _);
        [vm_compute; discriminate | exact Hfin |].
      exists s'. split; [exact Hres |]. cbv zeta. split.
      * intros _. rewrite Hv, Hm. split; [reflexivity |].
        apply clamp_spec. destruct w; vm_compute; discriminate.
      * intros Hnot. exfalso. apply Hnot.
        apply float_finite_iff. exact Hfin.
    + destruct (update_scale_rings (Numeric q) w (scale_min w)
                  (scale_max w) 0.5 (scale_unit w) s)
        as (s' & Hres & Hv & Hb & _); [right; exact Hfin |].
      exists s'. split; [exact Hres |]. cbv zeta. split.
      * intros Hyes. apply float_finite_iff in Hyes. congruence.
      * intros _. split; assumption.
  - destruct (update_scale_rings Rejected w (scale_min w) (scale_max w) 0.5
                (scale_unit w) s) as (s' & Hres & Hv & Hb & _);
      [exact I |].
    exists s'. split; [exact Hres |]. split; assumption.
Qed.

(** The input '1e308' converts to the finite number [float_1e308], but
    its quotient by the step 0.5 is not finite: the bell rings and the
    pace stays at 5.5. *)
Example scale_command_overflow :
  exists s' : App,
    scale_command breath_scale (Numeric (inject_Z float_1e308)) init
      = Done tt s' /\
    bells (master s') = 1%nat /\
    breath_pace s' = DEFAULT_BREATH_PACE.
Proof. eexists. split; [vm_compute; reflexivity |]. split; reflexivity. Qed.

(** C6 (as stated) fails: the out-of-range input 100 on the pace slider is
    clamped to 9.0 but the bell does not ring. *)
Lemma scale_command_clamps_without_alert :
  invalid_input breath_scale (Numeric 100) /\
  ~ clamps_and_alerts breath_scale (Numeric 100) init.
Proof.
  split.
  - simpl. intros [_ H]. vm_compute in H. apply H. reflexivity.
  - intros (s' & Hcmd & _ & Hbell).
    vm_compute in Hcmd. injection Hcmd as <-.
    vm_compute in Hbell. discriminate.
Qed.

End Session.

(** * Further properties of the engine *)

Section EngineMore.
Local Open Scope Q_scope.

Section LoopMore.
Variables (t : Q) (lbls : list string).

(** With durations that are not negative the loop raises nothing for a
    [t] at or past the running offset: a phase of duration 0 is never the
    one returned. *)
Lemma phase_loop_nonneg (ds : list Q) :
  forall (i : nat) (c : Q),
    Forall (fun x => 0 <= x) ds ->
    length lbls = (i + length ds)%nat ->
    lbls <> [] ->
    c <= t ->
    exists (lbl : string) (f r : Q),
      phase_loop t lbls i c ds = Ok (lbl, f, r) /\
      lbl ∈ lbls /\ 0 <= f /\ f <= 1 /\ 0 <= r.
Proof.
  induction ds as [| d ds IH]; intros i c Hnn Hlen Hne Hlo; simpl in *.
  - destruct (proj2 (last_is_Some lbls) Hne) as [lbl Hlast].
    exists lbl, 1.0, 0.0. unfold py_last. rewrite Hlast.
    split; [reflexivity |].
    split; [eapply last_Some_elem_of; exact Hlast |].
    repeat split; vm_compute; discriminate.
  - inversion Hnn as [| ? ? Hd Hnn']; subst.
    destruct (Qltb t (c + d)) eqn:E.
    + apply Qltb_lt in E.
      destruct (lookup_lt_is_Some_2 lbls i) as [lbl Hlbl]; [lia |].
      exists lbl, ((t - c) / d), (d - (t - c)).
      unfold py_index. rewrite Hlbl. simpl.
      rewrite py_div_ok by lra.
      split; [reflexivity |].
      split; [eapply list_elem_of_lookup_2; exact Hlbl |].
      split; [apply Qle_shift_div_l; lra |].
      split; [apply Qle_shift_div_r; lra | lra].
    + apply Qltb_ge in E.
      apply IH; try assumption; lia.
Qed.

(** Without labels every path of the loop ends in [IndexError]. *)
Lemma phase_loop_no_labels (ds : list Q) :
  forall (i : nat) (c : Q),
    lbls = [] -> phase_loop t lbls i c ds = Raise IndexError.
Proof.
  induction ds as [| d ds IH]; intros i c ->; simpl.
  - reflexivity.
  - destruct (Qltb t (c + d)); [reflexivity | apply IH; reflexivity].
Qed.

End LoopMore.

(** With durations that are not negative (a 0 is allowed), as many labels
    as phases, at least one phase and [t = norm * total] not negative,
    [_calc_phase_progress] raises nothing: it returns one of the labels, a
    fraction in [0, 1] and a remainder that is not negative. *)
Theorem calc_phase_progress_no_zero_division (pat : BreathingPattern)
    (norm total : Q) :
  length (phases pat) = length (labels pat) ->
  phases pat <> [] ->
  Forall (fun d => 0 <= d) (phases pat) ->
  0 <= norm * total ->
  exists (lbl : string) (f r : Q),
    _calc_phase_progress norm pat total = Ok (lbl, f, r) /\
    lbl ∈ labels pat /\ 0 <= f /\ f <= 1 /\ 0 <= r.
Proof.
  intros Hlen Hne Hnn Ht. unfold _calc_phase_progress.
  apply phase_loop_nonneg; try assumption.
  - simpl. congruence.
  - intros Hnil. rewrite Hnil in Hlen.
    destruct (phases pat); [congruence | discriminate].
Qed.

Lemma calc_phase_progress_no_zero_division_witness :
  exists (lbl : string) (f r : Q),
    _calc_phase_progress 0.5
      {| phases := [0; 4; 0; 8]; uses_pace := false;
         labels := ["inhale"; "hold"; "hold"; "exhale"] |} 12
      = Ok (lbl, f, r) /\
    lbl ∈ ["inhale"; "hold"; "hold"; "exhale"]%string /\
    0 <= f /\ f <= 1 /\ 0 <= r.
Proof.
  apply (calc_phase_progress_no_zero_division
           {| phases := [0; 4; 0; 8]; uses_pace := false;
              labels := ["inhale"; "hold"; "hold"; "exhale"] |} 0.5 12).
  - reflexivity.
  - discriminate.
  - repeat constructor; vm_compute; discriminate.
  - vm_compute. discriminate.
Defined.

(** A pattern without labels makes every call raise [IndexError],
    whatever its phases and the progress are. *)
Theorem calc_phase_progress_no_labels (pat : BreathingPattern)
    (norm total : Q) :
  labels pat = [] ->
  _calc_phase_progress norm pat total = Raise IndexError.
Proof.
  intros H. unfold _calc_phase_progress.
  apply phase_loop_no_labels. exact H.
Qed.

Lemma calc_phase_progress_no_labels_witness :
  _calc_phase_progress 0.5
    {| phases := [1; 1]; uses_pace := true; labels := [] |} 2
  = Raise IndexError.
Proof.
  apply (calc_phase_progress_no_labels
           {| phases := [1; 1]; uses_pace := true; labels := [] |} 0.5 2).
  reflexivity.
Defined.



(** [scaleFactor] is defined on the three phase names only: for a fraction
    in [0, 1] it lies between 0.19 and 1.0 (the formulas give 0.2 at the
    least, which binary64 rounds to just below 0.2 for "exhale" at 1.0),
    and any other name raises [KeyError]. *)
Theorem scaleFactor_range (phase : string) (p : Q) :
  0 <= p ->
  p <= 1 ->
  (phase ∈ known_labels ->
   exists v : Q, scaleFactor phase p = Ok v /\ 0.19 <= v /\ v <= 1.0) /\
  (phase ∉ known_labels -> scaleFactor phase p = Raise KeyError).
Proof.
  intros H0 H1. split.
  - intros Hkey. unfold known_labels in Hkey.
    apply elem_of_union in Hkey as [Hkey | Hkey];
      [apply elem_of_union in Hkey as [Hkey | Hkey] |];
      apply elem_of_singleton in Hkey; subst phase;
      eexists; (split; [reflexivity |]); split; lra.
  - intros Hkey.
    assert (SCALE_FACTORS !! phase = None) as Hnone.
    { apply not_elem_of_dom. exact Hkey. }
    unfold scaleFactor, py_getitem. rewrite Hnone. reflexivity.
Qed.

Lemma scaleFactor_range_witness :
  ("exhale"%string ∈ known_labels ->
   exists v : Q, scaleFactor "exhale" 0.5 = Ok v /\ 0.19 <= v /\ v <= 1.0)
  /\
  ("exhale"%string ∉ known_labels ->
   scaleFactor "exhale" 0.5 = Raise KeyError).
Proof.
  apply (scaleFactor_range "exhale" 0.5); vm_compute; discriminate.
Defined.

(** For durations that are not negative, [advance] raises
    [ZeroDivisionError] exactly when the pace of a paced pattern, or the
    sum of the phases of an unpaced one, is 0; otherwise it raises nothing,
    whatever the previous progress and the interval are. *)
Theorem advance_raises_iff (prev interval pace : Q)
    (pat : BreathingPattern) :
  Forall (fun d => 0 <= d) (phases pat) ->
  let degenerate :=
    if uses_pace pat then pace == 0 else py_sum (phases pat) == 0 in
  (degenerate -> advance prev interval pat pace = Raise ZeroDivisionError)
  /\
  (~ degenerate -> exists p : Q, advance prev interval pat pace = Ok p).
Proof.
  intros _.
  unfold advance, cycle_time. destruct (uses_pace pat); cbv zeta; split.
  - intros H.
    assert (py_div 60 pace = Raise ZeroDivisionError) as ->; [| reflexivity].
    unfold py_div. apply Qeq_bool_iff in H. rewrite H. reflexivity.
  - intros H. rewrite py_div_ok by exact H. cbv [mbind py_bind].
    rewrite py_div_ok.
    + eexists. reflexivity.
    + intros Hz. apply H.
      assert (60 / pace == 0) as Hq by lra.
      assert (60 / pace * pace == 60) as H60 by (field; exact H).
      rewrite Hq in H60. lra.
  - intros H. cbv [mbind py_bind]. unfold py_div.
    assert (py_sum (phases pat) * 1000 == 0) as Hz by lra.
    apply Qeq_bool_iff in Hz. rewrite Hz. reflexivity.
  - intros H. cbv [mbind py_bind]. rewrite py_div_ok by lra.
    eexists. reflexivity.
Qed.

Lemma advance_raises_iff_witness :
  (5.5 == 0 -> advance 0.5 16 balanced 5.5 = Raise ZeroDivisionError) /\
  (~ 5.5 == 0 -> exists p : Q, advance 0.5 16 balanced 5.5 = Ok p).
Proof.
  apply (advance_raises_iff 0.5 16 5.5 balanced).
  repeat constructor; vm_compute; discriminate.
Defined.

End EngineMore.

(** * Further properties of the session controller *)

Section SessionMore.
Local Open Scope Q_scope.

Ltac stop_split s :=
  unfold stop_session; cbv [mbind M_bind get];
  destruct (is_running s) eqn:?; destruct (scheduled_end s) eqn:?;
  cbv [modify mbind M_bind mret M_ret].

Lemma py_min_bounds (a x : Q) :
  0 <= a -> 0 <= x -> 0 <= py_min a x /\ py_min a x <= a.
Proof.
  intros Ha Hx. unfold py_min.
  destruct (Qltb x a) eqn:E;
    [apply Qltb_lt in E | apply Qltb_ge in E]; split; lra.
Qed.

Lemma circle_box_inside (sf : Q) :
  0 <= sf -> sf <= 1 -> inside_canvas (circle_box sf).
Proof.
  intros H0 H1. unfold inside_canvas, circle_box.
  change (inject_Z (CANVAS_SIZE / 2)) with 150.
  change (inject_Z CIRCLE_PADDING) with 15.
  change (inject_Z (CANVAS_SIZE - CIRCLE_PADDING)) with 285.
  repeat split; lra.
Qed.

(** What [_update_visuals] draws for one of the three phase names. *)
Lemma update_visuals_known (f r : Q) (lbl : string) (s : App) :
  lbl ∈ known_labels ->
  exists (color : string) (sf : Q),
    PHASE_COLORS !! lbl = Some color /\
    scaleFactor lbl f = Ok sf /\
    _update_visuals f r lbl s =
      Done tt
        (set_canvas
           {| circle_coords := circle_box sf; arc_coords := circle_box sf;
              arc_extent := py_min 359.99 (359.99 * f);
              arc_outline := color;
              text := PhaseText (capitalize lbl) r |} s).
Proof.
  intros Hkey. unfold known_labels in Hkey.
  apply elem_of_union in Hkey as [Hkey | Hkey];
    [apply elem_of_union in Hkey as [Hkey | Hkey] |];
    apply elem_of_singleton in Hkey; subst lbl;
    eexists _, _; repeat split; reflexivity.
Qed.

(** A tick that can run: the values it computes and the state it
    leaves. *)
Lemma tick_result (s : App) :
  is_running s = true ->
  can_tick s ->
  exists (pat : BreathingPattern) (p f r : Q) (lbl color : string) (sf : Q),
    patterns !! selected_pattern s = Some pat /\
    advance (progress s) (inject_Z UPDATE_INTERVAL) pat (breath_pace s)
      = Ok p /\
    resolvePhase p pat = Ok (lbl, f, r) /\
    (0 <= p /\ p < 1) /\ (0 <= f /\ f < 1) /\
    lbl ∈ known_labels /\
    PHASE_COLORS !! lbl = Some color /\
    scaleFactor lbl f = Ok sf /\
    _run_breathing_cycle s = Done tt (ticked s p f r lbl color sf).
Proof.
  intros Hrun (pat & Hpat & Hpace).
  destruct (patterns_valid _ _ Hpat) as [Hv Hkeys].
  pose proof (valid_sum_positive pat Hv) as Hsum.
  assert (exists p, advance (progress s) (inject_Z UPDATE_INTERVAL) pat
                      (breath_pace s) = Ok p /\ 0 <= p /\ p < 1)
    as (p & Hadv & Hp0 & Hp1).
  { unfold advance, cycle_time. destruct (uses_pace pat).
    - rewrite py_div_ok by (apply Hpace; reflexivity).
      cbv [mbind py_bind]. rewrite py_div_ok.
      + eexists. split; [reflexivity | apply py_mod1_range].
      + intros Hz.
        assert (60 / breath_pace s == 0) as Hq by lra.
        assert (60 / breath_pace s * breath_pace s == 60) as H60
          by (field; apply Hpace; reflexivity).
        rewrite Hq in H60. lra.
    - cbv [mbind py_bind]. rewrite py_div_ok by lra.
      eexists. split; [reflexivity | apply py_mod1_range]. }
  destruct Hv as (Hlen & _ & Hpos).
  destruct (phase_loop_inside (p * py_sum (phases pat)) (labels pat)
              (phases pat) 0%nat 0 Hpos)
    as (lbl & f & r & Hres & Hin & Hf0 & Hf1 & _).
  { simpl. congruence. }
  { apply Qmult_le_0_compat; lra. }
  { fold (py_sum (phases pat)). nra. }
  assert (lbl ∈ known_labels) as Hkey.
  { rewrite Forall_forall in Hkeys. apply Hkeys. exact Hin. }
  destruct (update_visuals_known f r lbl
              (set_current_phase lbl (set_progress p s)) Hkey)
    as (color & sf & Hcolor & Hsf & Hvis).
  exists pat, p, f, r, lbl, color, sf.
  split; [exact Hpat |]. split; [exact Hadv |]. split; [exact Hres |].
  split; [split; assumption |]. split; [split; assumption |].
  split; [exact Hkey |]. split; [exact Hcolor |]. split; [exact Hsf |].
  unfold _run_breathing_cycle. cbv [mbind M_bind get lift].
  rewrite Hrun. simpl. unfold py_getitem. rewrite Hpat, Hadv.
  cbv [modify].
  change (_calc_phase_progress p pat (py_sum (phases pat)))
    with (resolvePhase p pat).
  unfold resolvePhase, _calc_phase_progress. rewrite Hres.
  rewrite Hvis. reflexivity.
Qed.

Lemma scale_bounds (lbl : string) (f sf : Q) :
  lbl ∈ known_labels -> 0 <= f -> f <= 1 ->
  scaleFactor lbl f = Ok sf -> 0 <= sf /\ sf <= 1.
Proof.
  intros Hkey H0 H1. unfold known_labels in Hkey.
  apply elem_of_union in Hkey as [Hkey | Hkey];
    [apply elem_of_union in Hkey as [Hkey | Hkey] |];
    apply elem_of_singleton in Hkey; subst lbl; intros H.
  - change (Ok (0.2 + 0.8 * f) = Ok sf) in H. injection H as <-.
    split; lra.
  - change (Ok 1.0 = Ok sf) in H. injection H as <-. split; lra.
  - change (Ok (1.0 - 0.8 * f) = Ok sf) in H. injection H as <-.
    split; lra.
Qed.

(** A tick of a running session that can tick, with a progress in
    [0, 1) and a positive pace, raises nothing and keeps the display in
    range: the progress is in [0, 1), the phase is one of the three
    names and the arc has its colour, the arc extent is between 0 and
    359.99, the circle stays inside the canvas, exactly one tick is added
    to the queue, and the flags, the settings and the widgets are
    untouched. *)
Theorem tick_keeps_invariants (s : App) :
  is_running s = true ->
  can_tick s ->
  0 <= progress s ->
  progress s < 1 ->
  0 < breath_pace s ->
  exists s' : App,
    _run_breathing_cycle s = Done tt s' /\
    (0 <= progress s' /\ progress s' < 1) /\
    current_phase s' ∈ known_labels /\
    PHASE_COLORS !! current_phase s' = Some (arc_outline (canvas s')) /\
    (0 <= arc_extent (canvas s') /\ arc_extent (canvas s') <= 359.99) /\
    inside_canvas (circle_coords (canvas s')) /\
    arc_coords (canvas s') = circle_coords (canvas s') /\
    after_queue (master s') =
      after_queue (master s)
        ++ [(next_after (master s),
             (UPDATE_INTERVAL, cb_run_breathing_cycle))] /\
    is_running s' = true /\
    scheduled_end s' = scheduled_end s /\
    same_settings s s'.
Proof.
  intros Hrun Hcan _ _ _.
  destruct (tick_result s Hrun Hcan)
    as (pat & p & f & r & lbl & color & sf & _ & _ & _ & Hp & [Hf0 Hf1]
        & Hkey & Hcolor & Hsf & Htick).
  destruct (scale_bounds lbl f sf Hkey Hf0 ltac:(lra) Hsf) as [Hs0 Hs1].
  exists (ticked s p f r lbl color sf).
  split; [exact Htick |]. split; [exact Hp |].
  split; [exact Hkey |]. split; [exact Hcolor |].
  split; [apply py_min_bounds; lra |].
  split; [apply circle_box_inside; lra |].
  split; [reflexivity |]. split; [reflexivity |].
  split; [exact Hrun |]. split; [reflexivity |].
  repeat split.
Qed.

Lemma tick_keeps_invariants_witness :
  exists s' : App,
    _run_breathing_cycle started = Done tt s' /\
    (0 <= progress s' /\ progress s' < 1) /\
    current_phase s' ∈ known_labels /\
    PHASE_COLORS !! current_phase s' = Some (arc_outline (canvas s')) /\
    (0 <= arc_extent (canvas s') /\ arc_extent (canvas s') <= 359.99) /\
    inside_canvas (circle_coords (canvas s')) /\
    arc_coords (canvas s') = circle_coords (canvas s') /\
    after_queue (master s') =
      after_queue (master started)
        ++ [(next_after (master started),
             (UPDATE_INTERVAL, cb_run_breathing_cycle))] /\
    is_running s' = true /\
    scheduled_end s' = scheduled_end started /\
    same_settings started s'.
Proof.
  apply (tick_keeps_invariants started).
  - vm_compute. reflexivity.
  - exists balanced. split; [vm_compute; reflexivity |].
    intros _. vm_compute. discriminate.
  - vm_compute. discriminate.
  - reflexivity.
  - reflexivity.
Defined.

(** A tick that cannot run raises and leaves the object as it was, so no
    further tick is queued: [KeyError] when the selection is no key of the
    table, [ZeroDivisionError] when the pattern is paced and the pace
    is 0. *)
Theorem tick_raises_untouched (s : App) :
  is_running s = true ->
  (patterns !! selected_pattern s = None ->
   _run_breathing_cycle s = Raised KeyError s) /\
  (forall pat : BreathingPattern,
     patterns !! selected_pattern s = Some pat ->
     uses_pace pat = true ->
     breath_pace s == 0 ->
     _run_breathing_cycle s = Raised ZeroDivisionError s).
Proof.
  intros Hrun. split.
  - intros Hnone. unfold _run_breathing_cycle. cbv [mbind M_bind get lift].
    rewrite Hrun. simpl. unfold py_getitem. rewrite Hnone. reflexivity.
  - intros pat Hpat Hpace Hzero.
    unfold _run_breathing_cycle. cbv [mbind M_bind get lift].
    rewrite Hrun. simpl. unfold py_getitem. rewrite Hpat.
    assert (advance (progress s) (inject_Z UPDATE_INTERVAL) pat
              (breath_pace s) = Raise ZeroDivisionError) as ->;
      [| reflexivity].
    unfold advance, cycle_time. rewrite Hpace.
    assert (py_div 60 (breath_pace s) = Raise ZeroDivisionError) as ->;
      [| reflexivity].
    unfold py_div. apply Qeq_bool_iff in Hzero. rewrite Hzero. reflexivity.
Qed.

Lemma tick_raises_untouched_witness :
  (patterns !! selected_pattern (set_breath_pace 0 started) = None ->
   _run_breathing_cycle (set_breath_pace 0 started)
   = Raised KeyError (set_breath_pace 0 started)) /\
  (forall pat : BreathingPattern,
     patterns !! selected_pattern (set_breath_pace 0 started) = Some pat ->
     uses_pace pat = true ->
     breath_pace (set_breath_pace 0 started) == 0 ->
     _run_breathing_cycle (set_breath_pace 0 started)
     = Raised ZeroDivisionError (set_breath_pace 0 started)).
Proof.
  apply (tick_raises_untouched (set_breath_pace 0 started)).
  vm_compute. reflexivity.
Defined.

Lemma py_int_Z (x : Q) (n : Z) :
  (0 <= n)%Z -> x == inject_Z n -> py_int x = n.
Proof.
  intros Hn Hx. unfold py_int.
  assert (Qltb x 0 = false) as ->.
  { apply Qltb_ge. rewrite Hx. change 0 with (inject_Z 0).
    rewrite <- Zle_Qle. exact Hn. }
  rewrite (Qfloor_comp _ _ Hx). apply Qfloor_Z.
Qed.

(** Pressing the button in a stopped session that can tick, with a
    progress in [0, 1), a positive pace and a session duration of [k] half
    minutes within the slider's range, starts it: the flag is set, the
    button reads "Stop", the session-end callback is queued under a fresh
    identifier, which [scheduled_end] holds, with a delay of [k * 30000]
    milliseconds, the first tick has run (the progress is in [0, 1)) and
    the next one is queued right after. *)
Theorem toggle_session_starts (s : App) (k : Z) :
  is_running s = false ->
  can_tick s ->
  0 <= progress s ->
  progress s < 1 ->
  0 < breath_pace s ->
  session_duration s == inject_Z k * 0.5 ->
  (1 <= k <= 120)%Z ->
  exists s' : App,
    toggle_session s = Done tt s' /\
    is_running s' = true /\
    start_stop_button (widgets s') = "Stop"%string /\
    scheduled_end s' = Some (next_after (master s)) /\
    after_queue (master s') =
      after_queue (master s)
        ++ [(next_after (master s), ((k * 30000)%Z, cb_stop_session));
            (S (next_after (master s)),
             (UPDATE_INTERVAL, cb_run_breathing_cycle))] /\
    (0 <= progress s' /\ progress s' < 1) /\
    current_phase s' ∈ known_labels.
Proof.
  intros Hrun Hcan _ _ _ Hdur Hk.
  assert (py_int (session_duration s * 60 * 1000) = (k * 30000)%Z) as Hms.
  { apply py_int_Z; [lia |].
    rewrite Hdur, inject_Z_mult. change (inject_Z 30000) with 30000.
    ring. }
  set (s1 := set_scheduled_end (Some (next_after (master s)))
               (state_of (after (py_int (session_duration s * 60 * 1000))
                            cb_stop_session
                            (state_of (config_start_stop_button "Stop"
                                         (set_is_running true s)))))).
  assert (toggle_session s = _run_breathing_cycle s1) as Htog.
  { unfold toggle_session. cbv [mbind M_bind get]. rewrite Hrun.
    reflexivity. }
  assert (can_tick s1) as Hcan1.
  { destruct Hcan as (pat & Hpat & Hpace). exists pat. split; assumption. }
  destruct (tick_result s1 eq_refl Hcan1)
    as (pat & p & f & r & lbl & color & sf & _ & _ & _ & Hp & _
        & Hkey & _ & _ & Htick).
  exists (ticked s1 p f r lbl color sf).
  split; [rewrite Htog; exact Htick |].
  split; [reflexivity |]. split; [reflexivity |]. split; [reflexivity |].
  split.
  - unfold ticked, s1. simpl. rewrite Hms, <- app_assoc. reflexivity.
  - split; [exact Hp | exact Hkey].
Qed.

Lemma toggle_session_starts_witness :
  exists s' : App,
    toggle_session init = Done tt s' /\
    is_running s' = true /\
    start_stop_button (widgets s') = "Stop"%string /\
    scheduled_end s' = Some (next_after (master init)) /\
    after_queue (master s') =
      after_queue (master init)
        ++ [(next_after (master init), ((10 * 30000)%Z, cb_stop_session));
            (S (next_after (master init)),
             (UPDATE_INTERVAL, cb_run_breathing_cycle))] /\
    (0 <= progress s' /\ progress s' < 1) /\
    current_phase s' ∈ known_labels.
Proof.
  apply (toggle_session_starts init 10).
  - reflexivity.
  - exists balanced. split; [vm_compute; reflexivity |].
    intros _. vm_compute. discriminate.
  - vm_compute. discriminate.
  - reflexivity.
  - reflexivity.
  - reflexivity.
  - lia.
Defined.

(** Pressing the button in a running session stops the animation (flag
    cleared, button "Start", progress 0, phase "exhale") but cancels
    nothing: the [after] queue and [scheduled_end] are what they were. *)
Theorem toggle_session_stops_keeps_queue (s : App) :
  is_running s = true ->
  exists s' : App,
    toggle_session s = Done tt s' /\
    is_running s' = false /\
    start_stop_button (widgets s') = "Start"%string /\
    progress s' = 0 /\ current_phase s' = "exhale"%string /\
    master s' = master s /\
    scheduled_end s' = scheduled_end s.
Proof.
  intros Hrun. unfold toggle_session. cbv [mbind M_bind get].
  rewrite Hrun. eexists. split; [reflexivity |].
  repeat split.
Qed.

Lemma toggle_session_stops_keeps_queue_witness :
  exists s' : App,
    toggle_session started = Done tt s' /\
    is_running s' = false /\
    start_stop_button (widgets s') = "Start"%string /\
    progress s' = 0 /\ current_phase s' = "exhale"%string /\
    master s' = master started /\
    scheduled_end s' = scheduled_end started.
Proof.
  apply (toggle_session_stops_keeps_queue started).
  vm_compute. reflexivity.
Defined.

(** [stop_session] touches neither the settings nor a widget (the button
    keeps its text) nor the bell; it queues nothing, so every callback
    queued afterwards was queued before; and it leaves the canvas at
    rest: text "Ready", arc extent 0, circle at full size. *)
Theorem stop_session_frame (s : App) :
  exists s' : App,
    stop_session s = Done tt s' /\
    same_settings s s' /\
    next_after (master s') = next_after (master s) /\
    (forall e : nat * (Z * callback),
       e ∈ after_queue (master s') -> e ∈ after_queue (master s)) /\
    text (canvas s') = ReadyText /\
    arc_extent (canvas s') = 0 /\
    circle_coords (canvas s') = circle_box 1.0.
Proof.
  exists (state_of (stop_session s)).
  split; [apply stop_session_done |].
  stop_split s; simpl; repeat split; try reflexivity;
    try (intros e He; exact He).
  intros e He. apply list_elem_of_filter in He as [_ He]. exact He.
Qed.

Lemma due_queued (s : App) (id : nat) (cb : callback) :
  due s id cb ->
  exists ms : Z, (id, (ms, cb)) ∈ after_queue (master s).
Proof.
  intros (i & ms & Hfind). exists ms.
  apply list_find_Some in Hfind as (Hi & _ & _).
  eapply list_elem_of_lookup_2. exact Hi.
Qed.

(** When the session-end callback of a running session comes due, the
    session stops: flag cleared, [scheduled_end] emptied, no entry with
    its identifier left in the queue, progress 0 and phase "exhale".  The
    widgets are not touched, so the button keeps the text it had. *)
Theorem end_callback_stops_session (s : App) (id : nat) :
  is_running s = true ->
  scheduled_end s = Some id ->
  due s id cb_stop_session ->
  exists s' : App,
    fire id s = Done tt s' /\
    is_running s' = false /\
    scheduled_end s' = None /\
    (forall (ms : Z) (cb : callback),
       (id, (ms, cb)) ∉ after_queue (master s')) /\
    progress s' = 0 /\ current_phase s' = "exhale"%string /\
    same_settings s s'.
Proof.
  intros Hrun Hend (i & ms & Hfind).
  unfold fire. cbv [mbind M_bind get]. rewrite Hfind.
  cbv [after_cancel run_callback]. unfold stop_session.
  cbv [mbind M_bind get]. simpl. rewrite Hrun, Hend.
  eexists. split; [reflexivity |].
  split; [reflexivity |]. split; [reflexivity |].
  split.
  - intros ms' cb Hin. simpl in Hin.
    apply list_elem_of_filter in Hin as [_ Hin].
    apply list_elem_of_filter in Hin as [Hne _]. simpl in Hne. congruence.
  - repeat split.
Qed.

Lemma end_callback_stops_session_witness :
  exists s' : App,
    fire 0 started = Done tt s' /\
    is_running s' = false /\
    scheduled_end s' = None /\
    (forall (ms : Z) (cb : callback),
       (0%nat, (ms, cb)) ∉ after_queue (master s')) /\
    progress s' = 0 /\ current_phase s' = "exhale"%string /\
    same_settings started s'.
Proof.
  apply (end_callback_stops_session started 0).
  - vm_compute. reflexivity.
  - vm_compute. reflexivity.
  - exists 0%nat, 300000%Z. vm_compute. reflexivity.
Defined.

(** A queued tick that comes due while the flag is cleared only leaves
    the queue: nothing is queued in its place, so the queue gets shorter,
    and the rest of the object is as it was. *)
Theorem tick_dies_when_stopped (s : App) (id : nat) :
  is_running s = false ->
  due s id cb_run_breathing_cycle ->
  exists s' : App,
    fire id s = Done tt s' /\
    after_queue (master s') =
      filter (fun e => e.1 <> id) (after_queue (master s)) /\
    (length (after_queue (master s')) < length (after_queue (master s)))%nat
    /\
    is_running s' = false /\
    scheduled_end s' = scheduled_end s /\
    progress s' = progress s /\ current_phase s' = current_phase s /\
    canvas s' = canvas s /\
    same_settings s s'.
Proof.
  intros Hrun Hdue.
  destruct (due_queued s id _ Hdue) as [ms' Hin].
  destruct Hdue as (i & ms & Hfind).
  unfold fire. cbv [mbind M_bind get]. rewrite Hfind.
  cbv [after_cancel run_callback].
  rewrite run_breathing_cycle_stopped by exact Hrun.
  eexists. split; [reflexivity |].
  split; [reflexivity |].
  split.
  - simpl. eapply length_filter_lt; [exact Hin |].
    simpl. intros Hne. apply Hne. reflexivity.
  - split; [exact Hrun |]. repeat split.
Qed.

Lemma tick_dies_when_stopped_witness :
  exists s' : App,
    fire 1 stopped_by_button = Done tt s' /\
    after_queue (master s') =
      filter (fun e => e.1 <> 1%nat)
        (after_queue (master stopped_by_button)) /\
    (length (after_queue (master s'))
     < length (after_queue (master stopped_by_button)))%nat /\
    is_running s' = false /\
    scheduled_end s' = scheduled_end stopped_by_button /\
    progress s' = progress stopped_by_button /\
    current_phase s' = current_phase stopped_by_button /\
    canvas s' = canvas stopped_by_button /\
    same_settings stopped_by_button s'.
Proof.
  apply (tick_dies_when_stopped stopped_by_button 1).
  - vm_compute. reflexivity.
  - exists 1%nat, 16%Z. vm_compute. reflexivity.
Defined.

(** [reset_settings] raises nothing whatever the state is (also when the
    selection was no key of the table): it stops the session and leaves
    the default pace, duration and pattern, their label texts, and the
    pace slider enabled. *)
Theorem reset_settings_defaults (s : App) :
  exists s' : App,
    reset_settings s = Done tt s' /\
    is_running s' = false /\
    breath_pace s' = DEFAULT_BREATH_PACE /\
    session_duration s' = DEFAULT_SESSION_DURATION /\
    selected_pattern s' = "Balanced (1:1)"%string /\
    breath_pace_label (widgets s') = LabelText DEFAULT_BREATH_PACE "bpm" /\
    session_duration_label (widgets s')
      = LabelText DEFAULT_SESSION_DURATION "min" /\
    breath_scale_state (widgets s') = "normal"%string /\
    breath_pace_label_style (widgets s') = "TLabel"%string /\
    start_stop_button (widgets s') = start_stop_button (widgets s) /\
    bells (master s') = bells (master s).
Proof.
  pose proof (stop_session_not_running s) as Hrun.
  assert (widgets (state_of (stop_session s)) = widgets s /\
          bells (master (state_of (stop_session s))) = bells (master s))
    as [Hw Hb].
  { stop_split s; split; reflexivity. }
  unfold reset_settings. cbv [mbind M_bind].
  rewrite stop_session_done.
  generalize dependent (state_of (stop_session s)). intros s0 Hrun Hw Hb.
  eexists. split; [vm_compute; reflexivity |].
  split; [exact Hrun |].
  repeat (split; [reflexivity |]).
  split; [rewrite <- Hw; reflexivity | exact Hb].
Qed.

Lemma unpaced_only_478 :
  map_Forall (fun name pat =>
                uses_pace pat = false <-> name = "4-7-8 (+hold)"%string)
             patterns.
Proof.
  unfold patterns.
  repeat apply map_Forall_insert_2; try apply map_Forall_empty;
    simpl; split; intros H; first [discriminate H | reflexivity].
Qed.

(** For a selection of the table [_handle_pattern_change] enables the pace
    slider, and disables it exactly for the pattern "4-7-8 (+hold)", the
    only one that is not paced; nothing but the slider state and the style
    of the pace label changes. *)
Theorem handle_pattern_change_pace_slider (s : App)
    (pat : BreathingPattern) :
  patterns !! selected_pattern s = Some pat ->
  exists s' : App,
    _handle_pattern_change s = Done tt s' /\
    (breath_scale_state (widgets s') = "disabled"%string <->
     selected_pattern s = "4-7-8 (+hold)"%string) /\
    (breath_scale_state (widgets s') = "normal"%string <->
     selected_pattern s <> "4-7-8 (+hold)"%string) /\
    (breath_pace_label_style (widgets s') = "Dis.TLabel"%string <->
     selected_pattern s = "4-7-8 (+hold)"%string) /\
    set_widgets (widgets s) s' = s /\
    start_stop_button (widgets s') = start_stop_button (widgets s) /\
    breath_pace_label (widgets s') = breath_pace_label (widgets s) /\
    session_duration_label (widgets s')
      = session_duration_label (widgets s).
Proof.
  intros Hpat.
  pose proof (unpaced_only_478 _ _ Hpat) as Hiff. simpl in Hiff.
  unfold _handle_pattern_change. cbv [mbind M_bind get lift].
  unfold py_getitem. rewrite Hpat. cbv [modify].
  eexists. split; [reflexivity |]. simpl.
  destruct (uses_pace pat); destruct s; simpl in *;
    repeat split; try reflexivity; try discriminate;
    try tauto; intros; try (exfalso; intuition congruence);
    intuition congruence.
Qed.

Lemma handle_pattern_change_pace_slider_witness :
  exists s' : App,
    _handle_pattern_change (set_selected_pattern "4-7-8 (+hold)" init)
      = Done tt s' /\
    (breath_scale_state (widgets s') = "disabled"%string <->
     selected_pattern (set_selected_pattern "4-7-8 (+hold)" init)
       = "4-7-8 (+hold)"%string) /\
    (breath_scale_state (widgets s') = "normal"%string <->
     selected_pattern (set_selected_pattern "4-7-8 (+hold)" init)
       <> "4-7-8 (+hold)"%string) /\
    (breath_pace_label_style (widgets s') = "Dis.TLabel"%string <->
     selected_pattern (set_selected_pattern "4-7-8 (+hold)" init)
       = "4-7-8 (+hold)"%string) /\
    set_widgets (widgets (set_selected_pattern "4-7-8 (+hold)" init)) s'
      = set_selected_pattern "4-7-8 (+hold)" init /\
    start_stop_button (widgets s')
      = start_stop_button
          (widgets (set_selected_pattern "4-7-8 (+hold)" init)) /\
    breath_pace_label (widgets s')
      = breath_pace_label
          (widgets (set_selected_pattern "4-7-8 (+hold)" init)) /\
    session_duration_label (widgets s')
      = session_duration_label
          (widgets (set_selected_pattern "4-7-8 (+hold)" init)).
Proof.
  apply (handle_pattern_change_pace_slider
           (set_selected_pattern "4-7-8 (+hold)" init) four_seven_eight).
  vm_compute. reflexivity.
Defined.

(** *** More on the slider handler *)

Lemma Qltb_comp (x x' y y' : Q) :
  x == x' -> y == y' -> Qltb x y = Qltb x' y'.
Proof.
  intros Hx Hy.
  destruct (Qltb x' y') eqn:E;
    [apply Qltb_lt in E; apply Qltb_lt | apply Qltb_ge in E; apply Qltb_ge];
    lra.
Qed.

Lemma py_round_comp (x y : Q) : x == y -> py_round x = py_round y.
Proof.
  intros H. unfold py_round. rewrite (Qfloor_comp x y H).
  rewrite (Qltb_comp (x - inject_Z (Qfloor y)) (y - inject_Z (Qfloor y))
             0.5 0.5) by lra.
  rewrite (Qltb_comp 0.5 0.5 (x - inject_Z (Qfloor y))
             (y - inject_Z (Qfloor y))) by lra.
  reflexivity.
Qed.

Lemma py_round_Z (k : Z) : py_round (inject_Z k) = k.
Proof.
  unfold py_round. rewrite Qfloor_Z.
  assert (Qltb (inject_Z k - inject_Z k) 0.5 = true) as ->
    by (apply Qltb_lt; lra).
  reflexivity.
Qed.

(** [round] moves a number by at most one half. *)
Lemma py_round_near (x : Q) :
  inject_Z (py_round x) - x <= 0.5 /\ x - inject_Z (py_round x) <= 0.5.
Proof.
  unfold py_round.
  pose proof (Qfloor_le x) as Hlo.
  pose proof (Qlt_floor x) as Hhi.
  rewrite inject_Z_plus in Hhi. change (inject_Z 1) with 1 in Hhi.
  destruct (Qltb (x - inject_Z (Qfloor x)) 0.5) eqn:E1;
    [apply Qltb_lt in E1; split; lra | apply Qltb_ge in E1].
  destruct (Qltb 0.5 (x - inject_Z (Qfloor x))) eqn:E2;
    [apply Qltb_lt in E2 | apply Qltb_ge in E2].
  - rewrite inject_Z_plus. change (inject_Z 1) with 1. split; lra.
  - destruct (Z.even (Qfloor x)).
    + split; lra.
    + rewrite inject_Z_plus. change (inject_Z 1) with 1. split; lra.
Qed.

Lemma float_finite_small (x : Q) :
  - (1000) <= x -> x <= 1000 -> float_finite x = true.
Proof.
  intros Hlo Hhi. apply float_finite_iff.
  assert (1000 < float_overflow) as Hbig by reflexivity.
  split; lra.
Qed.

Lemma scale_bounds_ordered (w : slider) :
  0 <= scale_min w /\ scale_min w <= scale_max w /\ scale_max w <= 60.
Proof. destruct w; repeat split; vm_compute; discriminate. Qed.

(** A number within the bounds is moved by at most half a step, when the
    quotient by the step is finite. *)
Lemma update_scale_half_step (q : Q) (var : slider)
    (mn mx step : Q) (unit : string) (s : App) :
  mn <= q ->
  q <= mx ->
  0 < step ->
  float_finite (q / step) = true ->
  exists s' : App,
    _update_scale (Numeric q) var mn mx step unit s = Done tt s' /\
    q - step / 2 <= var_value var s' /\
    var_value var s' <= q + step / 2 /\
    bells (master s') = bells (master s).
Proof.
  intros Hlo Hhi Hstep Hfin.
  destruct (update_scale_numeric q var mn mx step unit s) as
    (s' & Hres & Hv & Hm & _); [lra | exact Hfin |].
  exists s'. split; [exact Hres |].
  rewrite Hm. rewrite Hv.
  assert (step / 2 == 0.5 * step) as Hhalf by field.
  rewrite Hhalf. clear Hhalf.
  set (k := inject_Z (py_round (q / step))) in *.
  destruct (py_round_near (q / step)) as [Hn1 Hn2]. fold k in Hn1, Hn2.
  assert (q / step * step == q) as Hq by (field; lra).
  set (z := q / step) in *.
  assert ((k - z) * step <= 0.5 * step) as Hm1
    by (apply Qmult_le_compat_r; lra).
  assert ((z - k) * step <= 0.5 * step) as Hm2
    by (apply Qmult_le_compat_r; lra).
  assert ((k - z) * step == k * step - z * step) as He1 by ring.
  assert ((z - k) * step == z * step - k * step) as He2 by ring.
  rewrite He1 in Hm1. rewrite He2 in Hm2. rewrite Hq in Hm1, Hm2.
  clear Hn1 Hn2 He1 He2 Hq Hfin.
  set (ks := k * step) in *. clearbody ks. clear k z.
  assert (mn <= mx) as Hb by lra.
  destruct (clamp_spec mn mx ks Hb) as (_ & _ & Hc1 & Hc2 & Hc3).
  destruct (Qlt_le_dec ks mn) as [Hlt | Hge].
  - rewrite (Hc1 Hlt). repeat split; try reflexivity; lra.
  - destruct (Qlt_le_dec mx ks) as [Hgt | Hle].
    + rewrite (Hc2 Hgt). repeat split; try reflexivity; lra.
    + rewrite (Hc3 Hge Hle). repeat split; try reflexivity; lra.
Qed.

(** A slider command moves a number that lies within the slider's range by
    at most half the step of 0.5, and the bell stays silent. *)
Theorem scale_command_moves_half_step (w : slider) (q : Q) (s : App) :
  scale_min w <= q ->
  q <= scale_max w ->
  exists s' : App,
    scale_command w (Numeric q) s = Done tt s' /\
    q - 0.5 / 2 <= var_value w s' /\
    var_value w s' <= q + 0.5 / 2 /\
    bells (master s') = bells (master s).
Proof.
  intros Hlo Hhi. unfold scale_command.
  destruct (scale_bounds_ordered w) as (H0 & _ & H60).
  apply update_scale_half_step; try assumption; [reflexivity |].
  apply float_finite_small.
  - assert (0 <= q / 0.5) by (apply Qle_shift_div_l; [reflexivity | lra]).
    lra.
  - apply Qle_shift_div_r; [reflexivity | lra].
Qed.

Lemma scale_command_moves_half_step_witness :
  exists s' : App,
    scale_command breath_scale (Numeric 3.3) init = Done tt s' /\
    3.3 - 0.5 / 2 <= var_value breath_scale s' /\
    var_value breath_scale s' <= 3.3 + 0.5 / 2 /\
    bells (master s') = bells (master init).
Proof.
  apply (scale_command_moves_half_step breath_scale 3.3 init);
    vm_compute; discriminate.
Defined.

(** With bounds on the step grid the handler is idempotent: fed with the
    value it stored, it stores an equal value. *)
Lemma update_scale_fixpoint (q : Q) (var : slider) (mn mx step : Q)
    (unit : string) (s : App) (a b : Z) :
  0 < step -> mn <= mx ->
  mn == inject_Z a * step -> mx == inject_Z b * step ->
  - (1000) * step <= mn -> mx <= 1000 * step ->
  float_finite (q / step) = true ->
  exists s1 s2 : App,
    _update_scale (Numeric q) var mn mx step unit s = Done tt s1 /\
    _update_scale (Numeric (var_value var s1)) var mn mx step unit s1
      = Done tt s2 /\
    var_value var s2 == var_value var s1 /\
    bells (master s2) = bells (master s).
Proof.
  intros Hstep Hb Hmn Hmx Hlo Hhi Hfin.
  destruct (update_scale_numeric q var mn mx step unit s)
    as (s1 & Hres1 & Hv1 & Hm1 & _); [lra | exact Hfin |].
  set (v := var_value var s1) in *.
  assert (mn <= v /\ v <= mx /\ exists j : Z, v == inject_Z j * step)
    as (Hvlo & Hvhi & j & Hj).
  { rewrite Hv1.
    destruct (clamp_spec mn mx
                (inject_Z (py_round (q / step)) * step) Hb)
      as (H1 & H2 & Hc1 & Hc2 & Hc3).
    split; [exact H1 |]. split; [exact H2 |].
    destruct (Qlt_le_dec (inject_Z (py_round (q / step)) * step) mn)
      as [Hlt | Hge].
    - exists a. rewrite (Hc1 Hlt). exact Hmn.
    - destruct (Qlt_le_dec mx (inject_Z (py_round (q / step)) * step))
        as [Hgt | Hle].
      + exists b. rewrite (Hc2 Hgt). exact Hmx.
      + exists (py_round (q / step)). rewrite (Hc3 Hge Hle). reflexivity. }
  assert (float_finite (v / step) = true) as Hfin2.
  { apply float_finite_small.
    - apply Qle_shift_div_l; lra.
    - apply Qle_shift_div_r; lra. }
  destruct (update_scale_numeric v var mn mx step unit s1)
    as (s2 & Hres2 & Hv2 & Hm2 & _); [lra | exact Hfin2 |].
  exists s1, s2. split; [exact Hres1 |]. split; [exact Hres2 |].
  assert (py_round (v / step) = j) as Hround.
  { rewrite <- (py_round_Z j). apply py_round_comp.
    rewrite Hj. field. lra. }
  split; [| rewrite Hm2, Hm1; reflexivity].
  rewrite Hv2, Hround.
  destruct (clamp_spec mn mx (inject_Z j * step) Hb)
    as (_ & _ & _ & _ & Hc3).
  rewrite Hc3 by lra. symmetry. exact Hj.
Qed.

(** Both sliders are idempotent on numbers: when a command stored a value
    for a number (the quotient by the step was finite) and that value is
    passed to the command again, the variable keeps an equal value and the
    bell stays silent. *)
Theorem scale_command_idempotent (w : slider) (q : Q) (s : App) :
  - float_overflow < q / 0.5 ->
  q / 0.5 < float_overflow ->
  exists s1 s2 : App,
    scale_command w (Numeric q) s = Done tt s1 /\
    scale_command w (Numeric (var_value w s1)) s1 = Done tt s2 /\
    var_value w s2 == var_value w s1 /\
    bells (master s2) = bells (master s).
Proof.
  intros Hlo Hhi.
  assert (float_finite (q / 0.5) = true) as Hfin
    by (apply float_finite_iff; split; assumption).
  unfold scale_command. destruct w; simpl.
  - apply (update_scale_fixpoint q breath_scale _ _ 0.5 "bpm" s 4 18);
      try exact Hfin; vm_compute; discriminate || reflexivity.
  - apply (update_scale_fixpoint q session_scale _ _ 0.5 "min" s 1 120);
      try exact Hfin; vm_compute; discriminate || reflexivity.
Qed.

Lemma scale_command_idempotent_witness :
  exists s1 s2 : App,
    scale_command breath_scale (Numeric 3.3) init = Done tt s1 /\
    scale_command breath_scale (Numeric (var_value breath_scale s1)) s1
      = Done tt s2 /\
    var_value breath_scale s2 == var_value breath_scale s1 /\
    bells (master s2) = bells (master init).
Proof.
  apply (scale_command_idempotent breath_scale 3.3 init); reflexivity.
Defined.

(** A slider command keeps its variable within the slider's range if it
    was there, for a number as for rejected text, and touches nothing of
    the session: not the other variable, the flags, the cycle state, the
    canvas or the [after] queue. *)
Theorem scale_command_keeps_range (w : slider) (v : scale_value) (s : App) :
  scale_min w <= var_value w s ->
  var_value w s <= scale_max w ->
  exists s' : App,
    scale_command w v s = Done tt s' /\
    (scale_min w <= var_value w s' /\ var_value w s' <= scale_max w) /\
    after_queue (master s') = after_queue (master s) /\
    is_running s' = is_running s /\ scheduled_end s' = scheduled_end s /\
    progress s' = progress s /\ current_phase s' = current_phase s /\
    canvas s' = canvas s /\ selected_pattern s' = selected_pattern s /\
    match w with
    | breath_scale => session_duration s' = session_duration s
    | session_scale => breath_pace s' = breath_pace s
    end.
Proof.
  intros Hlo Hhi. unfold scale_command.
  assert (match v with
          | Numeric q => float_finite (q / 0.5) = true
          | Rejected => False
          end \/
          match v with
          | Numeric q => 0.5 == 0 \/ float_finite (q / 0.5) = false
          | Rejected => True
          end) as [Hnum | Hexc].
  { destruct v as [q |]; [| right; exact I].
    destruct (float_finite (q / 0.5)); [left | right; right]; reflexivity. }
  - destruct v as [q |]; [| contradiction].
    destruct (update_scale_numeric q w (scale_min w) (scale_max w) 0.5
                (scale_unit w) s) as (s' & Hres & Hv & Hm & Hrest);
      [vm_compute; discriminate | exact Hnum |].
    exists s'. split; [exact Hres |].
    assert (scale_min w <= scale_max w) as Hb by lra.
    destruct (clamp_spec (scale_min w) (scale_max w)
                (inject_Z (py_round (q / 0.5)) * 0.5) Hb) as (H1 & H2 & _).
    rewrite Hv. split; [split; assumption |].
    rewrite Hm. split; [reflexivity | exact Hrest].
  - destruct (update_scale_rings v w (scale_min w) (scale_max w) 0.5
                (scale_unit w) s Hexc)
      as (s' & Hres & Hv & _ & Hq & Hrest).
    exists s'. split; [exact Hres |].
    rewrite Hv. split; [split; assumption |].
    split; [exact Hq | exact Hrest].
Qed.

Lemma scale_command_keeps_range_witness :
  exists s' : App,
    scale_command breath_scale Rejected init = Done tt s' /\
    (scale_min breath_scale <= var_value breath_scale s' /\
     var_value breath_scale s' <= scale_max breath_scale) /\
    after_queue (master s') = after_queue (master init) /\
    is_running s' = is_running init /\
    scheduled_end s' = scheduled_end init /\
    progress s' = progress init /\ current_phase s' = current_phase init /\
    canvas s' = canvas init /\
    selected_pattern s' = selected_pattern init /\
    session_duration s' = session_duration init.
Proof.
  apply (scale_command_keeps_range breath_scale Rejected init);
    vm_compute; discriminate.
Defined.

(** A step of 0 makes the division raise for every number; the bare
    [except] swallows it: the variable keeps its value and the bell
    rings. *)
Theorem update_scale_zero_step (q : Q) (var : slider) (mn mx step : Q)
    (unit : string) (s : App) :
  step == 0 ->
  exists s' : App,
    _update_scale (Numeric q) var mn mx step unit s = Done tt s' /\
    var_value var s' = var_value var s /\
    bells (master s') = S (bells (master s)).
Proof.
  intros Hstep.
  destruct (update_scale_rings (Numeric q) var mn mx step unit s)
    as (s' & Hres & Hv & Hb & _); [left; exact Hstep |].
  exists s'. split; [exact Hres |]. split; assumption.
Qed.

Lemma update_scale_zero_step_witness :
  exists s' : App,
    _update_scale (Numeric 3) breath_scale 2.0 9.0 0 "bpm" init
      = Done tt s' /\
    var_value breath_scale s' = var_value breath_scale init /\
    bells (master s') = S (bells (master init)).
Proof.
  apply (update_scale_zero_step 3 breath_scale 2.0 9.0 0 "bpm" init).
  reflexivity.
Defined.

End SessionMore.
